(** * swe_normals: percent-of-normal snow-water-equivalent rasters

    A shallow embedding of [get_swe_normals.py] and the properties of its
    input resolver, normals engine, ratio computer and driver.

    The script is a thin layer over pandas, xarray and numpy, so the
    development first fixes the part of those libraries the script relies
    on (binary64 cells, timestamps, [pd.date_range] with the ["AS"]
    frequency, label selection and the time mean of a data array), then
    transcribes the five functions of the script, then states the
    properties. *)

From Stdlib Require Import Ascii String ZArith QArith List Bool Lia.
From Stdlib Require Import DecimalString DecimalPos DecimalFacts.
From Stdlib Require Import Floats.SpecFloat.
Import ListNotations.

Local Open Scope Z_scope.

(* ================================================================== *)
(** * Outcomes of Python calls *)

(** The exceptions the script can meet.  [OutOfBoundsDatetime] is the
    pandas subclass of [ValueError] raised for a timestamp outside the
    nanosecond range; [DataSourceUnavailable] stands for whatever the
    storage client raises when the store cannot be opened;
    [OverflowError] is what [datetime] raises for an argument that is no
    C [int].  [IterationBudget] is no exception of Python: it marks a
    loop of this model that has used up the turns it was given. *)
Inductive exn : Type :=
| ValueError
| KeyError
| TypeError
| EOFError
| OSError
| OverflowError
| OutOfBoundsDatetime
| DataSourceUnavailable
| IterationBudget.

Inductive result (A : Type) : Type :=
| Ok (a : A)
| Raise (e : exn).

Arguments Ok {A} a.
Arguments Raise {A} e.

Definition rbind {A B} (r : result A) (k : A -> result B) : result B :=
  match r with
  | Ok a => k a
  | Raise e => Raise e
  end.

Declare Scope result_scope.
Delimit Scope result_scope with result.
Notation "x <- r ;; k" := (rbind r (fun x => k))
  (at level 61, r at next level, right associativity) : result_scope.

(* ================================================================== *)
(** * Cells: IEEE 754 binary64 *)

Module F64.

Definition prec : Z := 53.
Definition emax : Z := 1024.

Definition cell : Type := spec_float.

Definition nan : cell := S754_nan.
Definition add : cell -> cell -> cell := SFadd prec emax.
Definition mul : cell -> cell -> cell := SFmul prec emax.
Definition div : cell -> cell -> cell := SFdiv prec emax.

(** Conversion of a Python [int] to a float (exact below 2^53). *)
Definition of_Z (n : Z) : cell := binary_normalize prec emax n 0 false.

Definition zero : cell := S754_zero false.
Definition hundred : cell := of_Z 100.

Definition is_nan (x : cell) : bool :=
  match x with
  | S754_nan => true
  | _ => false
  end.

(** A finite cell other than zero: neither NaN, nor an infinity, nor
    a zero. *)
Definition is_finite_nonzero (x : cell) : bool :=
  match x with
  | S754_finite _ _ _ => true
  | _ => false
  end.

(** [==] of numpy on two cells. *)
Definition eqb : cell -> cell -> bool := SFeqb.

(** The NaN-skipping mean xarray applies to float data
    ([skipna] defaults to true): the non-NaN values are summed and the
    sum is divided by their number; with none, 0.0 / 0 is NaN.  The sum
    is taken here in index order from 0.0; a chunked reduction may
    associate the additions otherwise, which no statement below depends
    on. *)
Definition nanmean (xs : list cell) : cell :=
  let present := filter (fun x => negb (is_nan x)) xs in
  div (fold_left add present zero) (of_Z (Z.of_nat (length present))).

End F64.

Definition cell : Type := F64.cell.

(* ================================================================== *)
(** * Grids *)

(** A 2-D grid, row by row. *)
Definition grid : Type := list (list cell).

Definition shape_t : Type := (nat * nat)%type.

Definition has_shape (sh : shape_t) (g : grid) : Prop :=
  length g = fst sh /\ Forall (fun row => length row = snd sh) g.

Fixpoint zip_with {A B C} (f : A -> B -> C) (xs : list A) (ys : list B)
  : list C :=
  match xs, ys with
  | x :: xs', y :: ys' => f x y :: zip_with f xs' ys'
  | _, _ => []
  end.

Definition grid_map (f : cell -> cell) (g : grid) : grid :=
  map (map f) g.

Definition grid_zip (f : cell -> cell -> cell) (g h : grid) : grid :=
  zip_with (zip_with f) g h.

Definition cell_at (i j : nat) (g : grid) : cell :=
  nth j (nth i g []) F64.nan.

Definition row (i : nat) (g : grid) : list F64.cell := nth i g [].

Definition tabulate {A} (n : nat) (f : nat -> A) : list A :=
  map f (seq 0 n).

Definition grid_tabulate (sh : shape_t) (f : nat -> nat -> cell) : grid :=
  tabulate (fst sh) (fun i => tabulate (snd sh) (fun j => f i j)).

Definition nan_grid (sh : shape_t) : grid :=
  grid_tabulate sh (fun _ _ => F64.nan).

(* ================================================================== *)
(** * Timestamps *)

Record datetime : Type := mkdt {
  year : Z;
  month : Z;
  day : Z;
  hour : Z;
  minute : Z;
  second : Z;
  nanosecond : Z
}.

Definition datetime_eqb (a b : datetime) : bool :=
  (year a =? year b) && (month a =? month b) && (day a =? day b)
  && (hour a =? hour b) && (minute a =? minute b)
  && (second a =? second b) && (nanosecond a =? nanosecond b).

Definition fields (t : datetime) : list Z :=
  [year t; month t; day t; hour t; minute t; second t; nanosecond t].

Fixpoint lex_compare (xs ys : list Z) : comparison :=
  match xs, ys with
  | x :: xs', y :: ys' =>
      match x ?= y with
      | Eq => lex_compare xs' ys'
      | c => c
      end
  | [], [] => Eq
  | [], _ :: _ => Lt
  | _ :: _, [] => Gt
  end.

(** Chronological order; on well-formed timestamps it is the
    lexicographic order of the fields. *)
Definition datetime_compare (a b : datetime) : comparison :=
  lex_compare (fields a) (fields b).

Definition datetime_leb (a b : datetime) : bool :=
  match datetime_compare a b with
  | Gt => false
  | _ => true
  end.

Definition datetime_ltb (a b : datetime) : bool :=
  match datetime_compare a b with
  | Lt => true
  | _ => false
  end.

Definition is_leap (y : Z) : bool :=
  (y mod 4 =? 0) && (negb (y mod 100 =? 0) || (y mod 400 =? 0)).

Definition days_in_month (y m : Z) : Z :=
  if m =? 2 then (if is_leap y then 29 else 28)
  else if (m =? 4) || (m =? 6) || (m =? 9) || (m =? 11) then 30
  else 31.

(** An integer that converts to a C [int]. *)
Definition fits_c_int (v : Z) : bool :=
  (- 2147483648 <=? v) && (v <=? 2147483647).

(** [dt.datetime(y, m, d, h)]: the arguments are converted to C [int]s,
    which is an [OverflowError] for one that does not fit, and then every
    field is checked against its range. *)
Definition dt_datetime (y m d h : Z) : result datetime :=
  if fits_c_int y && fits_c_int m && fits_c_int d && fits_c_int h then
    if (1 <=? y) && (y <=? 9999) && (1 <=? m) && (m <=? 12)
       && (1 <=? d) && (d <=? days_in_month y m)
       && (0 <=? h) && (h <=? 23)
    then Ok (mkdt y m d h 0 0 0)
    else Raise ValueError
  else Raise OverflowError.

(* ================================================================== *)
(** * pandas: timestamps and [date_range(start, end, freq="AS")] *)

Module Pandas.

(** [Timestamp.min] and [Timestamp.max] of the nanosecond resolution. *)
Definition Timestamp_min : datetime := mkdt 1677 9 21 0 12 43 145224193.
Definition Timestamp_max : datetime := mkdt 2262 4 11 23 47 16 854775807.

Definition in_bounds (t : datetime) : bool :=
  datetime_leb Timestamp_min t && datetime_leb t Timestamp_max.

Definition Timestamp (t : datetime) : result datetime :=
  if in_bounds t then Ok t else Raise OutOfBoundsDatetime.

(** ["AS"] is the alias of [YearBegin(month=1)]: the offset is anchored
    on January whatever the month of the endpoints.  Its day option is
    ["start"], so the day it compares with and moves to is 1. *)
Definition AS_month : Z := 1.

Definition is_on_offset (t : datetime) : bool :=
  (month t =? AS_month) && (day t =? 1).

Definition roll_qtrday (other : datetime) (n : Z) (mth : Z) : Z :=
  let months_since := month other - mth in
  if 0 <? n then
    if (months_since <? 0) || ((months_since =? 0) && (day other <? 1))
    then n - 1 else n
  else
    if (0 <? months_since) || ((months_since =? 0) && (1 <? day other))
    then n + 1 else n.

(** [shift_month(stamp, months, "start")]; the time of day is kept. *)
Definition shift_month (stamp : datetime) (months : Z) : result datetime :=
  let dy := (month stamp + months) / 12 in
  let m := (month stamp + months) mod 12 in
  let '(m, dy) := if m =? 0 then (12, dy - 1) else (m, dy) in
  Timestamp (mkdt (year stamp + dy) m 1 (hour stamp) (minute stamp)
                  (second stamp) (nanosecond stamp)).

(** [other + YearBegin(n)]. *)
Definition YearBegin_apply (n : Z) (other : datetime) : result datetime :=
  let years := roll_qtrday other n AS_month in
  let months := years * 12 + (AS_month - month other) in
  shift_month other months.

Definition rollforward (t : datetime) : result datetime :=
  if is_on_offset t then Ok t else YearBegin_apply 1 t.

Definition rollback (t : datetime) : result datetime :=
  if is_on_offset t then Ok t else YearBegin_apply (-1) t.

(** The [while cur <= end] loop of [generate_range].  Each turn moves
    [cur] one year on, so the loop is run on a budget of turns;
    [date_range_AS] below hands it one that is never used up. *)
Fixpoint generate_loop (budget : nat) (cur end_ : datetime)
  : result (list datetime) :=
  if datetime_leb cur end_ then
    if datetime_eqb cur end_ then Ok [cur]
    else
      match budget with
      | O => Raise IterationBudget
      | S budget' =>
          (next_date <- YearBegin_apply 1 cur;;
           if datetime_leb next_date cur then Raise ValueError
           else
             rest <- generate_loop budget' next_date end_;;
             Ok (cur :: rest))%result
      end
  else Ok [].

(** [pd.date_range(start, end, freq="AS")], both endpoints included:
    the endpoints become timestamps, a start off the offset is rolled
    forward (else an end off the offset is rolled back), and the loop
    runs from the start; when the end lies before the start the range
    has no period. *)
Definition date_range_AS (start end_ : datetime) : result (list datetime) :=
  (s <- Timestamp start;;
   e <- Timestamp end_;;
   se <- (if negb (is_on_offset s) then
            s' <- rollforward s;; Ok (s', e)
          else if negb (is_on_offset e) then
            e' <- rollback e;; Ok (s, e')
          else Ok (s, e));;
   let '(s, e) := se in
   if datetime_ltb e s then
     (* periods = 0: end = start + (periods - 1) * offset *)
     e0 <- YearBegin_apply (-1) s;;
     generate_loop 0 s e0
   else
     generate_loop (Z.to_nat (year e - year s + 1)) s e)%result.

End Pandas.

(* ================================================================== *)
(** * xarray: a gridded series indexed by time *)

(** The time index in storage order with the grid of each timestep, and
    the spatial shape every grid of the series has. *)
Record DataArray : Type := mkDataArray {
  shape : shape_t;
  entries : list (datetime * grid)
}.

(** [da.time] *)
Definition time (da : DataArray) : list datetime := map fst (entries da).

(** [index.isin(values)]: an element-wise membership mask. *)
Definition isin (index values : list datetime) : list bool :=
  map (fun t => existsb (datetime_eqb t) values) index.

(** [da.sel(time=mask)] for a boolean mask over the time index. *)
Definition sel_mask (da : DataArray) (mask : list bool) : DataArray :=
  mkDataArray (shape da)
              (map snd (filter (fun p => fst p) (combine mask (entries da)))).

(** [da.mean(dim='time')]: the NaN-skipping mean of every cell over the
    timesteps; the result has the spatial shape of the series. *)
Definition mean_time (da : DataArray) : grid :=
  grid_tabulate (shape da)
    (fun i j => F64.nanmean (map (fun e => cell_at i j (snd e)) (entries da))).

(** What a label selection on the time index returns: the grid of the
    one matching timestep, the time dimension dropped; or, on an index
    that holds the label several times, the matching timesteps with the
    time dimension kept. *)
Inductive selected : Type :=
| One (g : grid)
| Many (gs : list grid).

(** The grids a selection holds. *)
Definition grids (s : selected) : list grid :=
  match s with
  | One g => [g]
  | Many gs => gs
  end.

Definition selected_map (f : grid -> grid) (s : selected) : selected :=
  match s with
  | One g => One (f g)
  | Many gs => Many (map f gs)
  end.

(** [da.sel(time=label)]: an exact lookup, [KeyError] when the label is
    not in the index. *)
Definition sel_label (da : DataArray) (label : datetime) : result selected :=
  match filter (fun e => datetime_eqb (fst e) label) (entries da) with
  | [] => Raise KeyError
  | [e] => Ok (One (snd e))
  | es => Ok (Many (map snd es))
  end.

(* ================================================================== *)
(** * The normals engine and the ratio computer *)

(** The list [month_firsts] built at the head of [get_normals]. *)
Definition month_firsts (year month : Z) (snodas : bool)
  : result (list datetime) :=
  (if snodas then
     start <- dt_datetime 2008 month 1 5;;
     end_ <- dt_datetime (year - 1) month 1 5;;
     Pandas.date_range_AS start end_
   else
     start <- dt_datetime 2000 month 1 0;;
     end_ <- dt_datetime (year - 1) month 1 0;;
     Pandas.date_range_AS start end_)%result.

(** The filtered series [month_firsts_da] of [get_normals]. *)
Definition month_firsts_da (da : DataArray) (year month : Z) (snodas : bool)
  : result DataArray :=
  (dates <- month_firsts year month snodas;;
   Ok (sel_mask da (isin (time da) dates)))%result.

Definition get_normals (da : DataArray) (year month : Z) (snodas : bool)
  : result grid :=
  (selection <- month_firsts_da da year month snodas;;
   let normals := mean_time selection in
   Ok normals)%result.

(** [(grid / normals) * 100], cell by cell. *)
Definition percent_grid (g normals : grid) : grid :=
  grid_map (fun q => F64.mul q F64.hundred) (grid_zip F64.div g normals).

Definition get_percent_of_normal (da : DataArray) (normals : grid)
  (year month : Z) (snodas : bool) : result selected :=
  (first_of_month <-
     (if snodas then dt_datetime year month 1 5
      else dt_datetime year month 1 0);;
   da_this_year_first_of_month <- sel_label da first_of_month;;
   let percent_of_normal :=
     selected_map (fun g => percent_grid g normals)
                  da_this_year_first_of_month in
   Ok percent_of_normal)%result.

(* ================================================================== *)
(** * Python text: [int(s)], [str(n)], [strftime("%b")] *)

Module Py.

Local Open Scope string_scope.

(** [str(n)] and [f"{n}"] for an [int]: decimal, no padding. *)
Definition str (n : Z) : string := NilZero.string_of_int (Z.to_int n).

(** A text is held as a string of bytes.  What [int] takes from the
    interpreter it runs in: the code points of a text that is not plain
    ASCII, the white space ([str.isspace]) and the decimal digits
    ([unicodedata.decimal]) of its Unicode database, and its limit on
    the digits of an integer text ([sys.get_int_max_str_digits()], 0 for
    none). *)
Record interpreter : Type := mkInterpreter {
  decode : string -> list N;
  isspace : N -> bool;
  todecimal : N -> option N;
  max_str_digits : N
}.

(** [Py_ISSPACE]: the characters [PyLong_FromString] skips around a
    number. *)
Definition is_space (c : ascii) : bool :=
  let n := N_of_ascii c in
  ((9 <=? n) && (n <=? 13) || (n =? 32))%N.

Definition digit_value (c : ascii) : option Z :=
  let n := N_of_ascii c in
  if ((48 <=? n) && (n <=? 57))%N then Some (Z.of_N n - 48) else None.

(** [PyUnicode_IS_ASCII] *)
Fixpoint is_ascii (s : string) : bool :=
  match s with
  | String c rest => (N_of_ascii c <? 128)%N && is_ascii rest
  | EmptyString => true
  end.

(** [_PyUnicode_TransformDecimalAndSpaceToASCII] on a text that is not
    plain ASCII: a white space of the database becomes a blank, a
    decimal digit of the database the ASCII digit of its value, and the
    text is cut at the first other character above ASCII, left as a
    question mark. *)
Fixpoint to_ascii (py : interpreter) (text : list N) : string :=
  match text with
  | [] => EmptyString
  | ch :: rest =>
      if (ch <? 127)%N then String (ascii_of_N ch) (to_ascii py rest)
      else if isspace py ch then String " " (to_ascii py rest)
      else
        match todecimal py ch with
        | Some d =>
            if (d <=? 9)%N
            then String (ascii_of_N (48 + d)) (to_ascii py rest)
            else "?"
        | None => "?"
        end
  end.

Fixpoint lstrip (s : string) : string :=
  match s with
  | String c rest => if is_space c then lstrip rest else s
  | EmptyString => s
  end.

Fixpoint all_space (s : string) : bool :=
  match s with
  | String c rest => is_space c && all_space rest
  | EmptyString => true
  end.

(** The digit scan of [long_from_string_base] in base 10: digits, with
    single underscores allowed between two digits.  Returns the value
    read, the number of digits read and what follows them. *)
Fixpoint scan_digits (s : string) (prev_underscore : bool) (acc : Z)
  (digits : N) : option (Z * N * string) :=
  match s with
  | String c rest =>
      match digit_value c with
      | Some d => scan_digits rest false (acc * 10 + d) (N.succ digits)
      | None =>
          if Ascii.eqb c "_" then
            if prev_underscore then None
            else scan_digits rest true acc digits
          else if prev_underscore then None else Some (acc, digits, s)
      end
  | EmptyString =>
      if prev_underscore then None else Some (acc, digits, s)
  end.

(** After the sign: no leading underscore, at least one digit, then
    only white space.  Returns the value and the number of its digits. *)
Definition parse_magnitude (s : string) : option (Z * N) :=
  match s with
  | String c _ =>
      match digit_value c with
      | Some _ =>
          match scan_digits s false 0 0 with
          | Some (n, digits, rest) =>
              if all_space rest then Some (n, digits) else None
          | None => None
          end
      | None => None
      end
  | EmptyString => None
  end.

(** The limit on integer texts: above 640 digits, a text of more digits
    than the limit of the interpreter, when it has one, is refused. *)
Definition over_limit (py : interpreter) (digits : N) : bool :=
  ((640 <? digits) && (0 <? max_str_digits py)
   && (max_str_digits py <? digits))%N.

(** [PyLong_FromString] in base 10 on the ASCII form of a text. *)
Definition parse_ascii (py : interpreter) (s : string) : option Z :=
  let body := lstrip s in
  let parsed :=
    match body with
    | String "+" rest => parse_magnitude rest
    | String "-" rest =>
        option_map (fun nd => (Z.opp (fst nd), snd nd)) (parse_magnitude rest)
    | _ => parse_magnitude body
    end in
  match parsed with
  | Some (n, digits) => if over_limit py digits then None else Some n
  | None => None
  end.

(** [int(s)]: a text of plain ASCII is parsed as it is, any other text
    through its ASCII form. *)
Definition int (py : interpreter) (s : string) : result Z :=
  let text := if is_ascii s then s else to_ascii py (decode py s) in
  match parse_ascii py text with
  | Some n => Ok n
  | None => Raise ValueError
  end.

(** [a or b] on strings: the empty string is the false one. *)
Definition or_ (a b : string) : string :=
  match a with
  | EmptyString => b
  | _ => a
  end.

(** [dt.date(year, month, 1)] *)
Definition dt_date (y m d : Z) : result (Z * Z * Z) :=
  if fits_c_int y && fits_c_int m && fits_c_int d then
    if (1 <=? y)%Z && (y <=? 9999)%Z && (1 <=? m)%Z && (m <=? 12)%Z
       && (1 <=? d)%Z && (d <=? days_in_month y m)%Z
    then Ok (y, m, d) else Raise ValueError
  else Raise OverflowError.

(** [strftime("%b")] in the C locale Python starts with. *)
Definition strftime_b (date : Z * Z * Z) : string :=
  let '(_, m, _) := date in
  nth (Z.to_nat (m - 1))
      ["Jan"; "Feb"; "Mar"; "Apr"; "May"; "Jun";
       "Jul"; "Aug"; "Sep"; "Oct"; "Nov"; "Dec"] "".

Definition lower_ascii (c : ascii) : ascii :=
  let n := N_of_ascii c in
  if ((65 <=? n) && (n <=? 90))%N then ascii_of_N (n + 32) else c.

Fixpoint lower (s : string) : string :=
  match s with
  | String c rest => String (lower_ascii c) (lower rest)
  | EmptyString => EmptyString
  end.

End Py.

(* ================================================================== *)
(** * The world the script runs in *)

(** A variable of a remote dataset, seen through the one operation the
    script applies to it: [.sel(x=slice(..), y=slice(..))]. *)
Record SourceArray : Type := mkSourceArray {
  sel_xy : Q * Q -> Q * Q -> DataArray
}.

(** [ds[name]] *)
Definition Dataset : Type := string -> option SourceArray.

(** What is fixed before [main] starts: the clock, the two credentials
    read from the environment, what each store location opens to (or
    that it cannot be opened), which paths can be written, and the
    interpreter the script runs in. *)
Record env : Type := mkEnv {
  today : datetime;
  SNODAS_SAS : option string;
  COPERNICUS_SAS : option string;
  open_zarr : string -> string -> string -> option Dataset;
  writable : string -> bool;
  python : Py.interpreter
}.

(** A grid tagged with a spatial reference system. *)
Record raster : Type := mkRaster {
  crs : string;
  data : selected
}.

(** What a run does that is visible from outside, in order. *)
Inductive event : Type :=
| Prompt (text : string)
| Print (text : string)
| Fetch (url container prefix : string)
| Written (path : string) (r : raster).

Record state : Type := mkState {
  stdin : list string;
  log : list event
}.

Definition io (A : Type) : Type := env -> state -> result A * state.

Definition ret {A} (a : A) : io A := fun _ st => (Ok a, st).

Definition raise {A} (e : exn) : io A := fun _ st => (Raise e, st).

Definition bind {A B} (m : io A) (k : A -> io B) : io B :=
  fun en st =>
    match m en st with
    | (Ok a, st') => k a en st'
    | (Raise e, st') => (Raise e, st')
    end.

Definition lift {A} (r : result A) : io A := fun _ st => (r, st).

Definition ask : io env := fun en st => (Ok en, st).

Definition emit (e : event) : io unit :=
  fun _ st => (Ok tt, mkState (stdin st) (log st ++ [e])).

Declare Scope io_scope.
Delimit Scope io_scope with io.
Notation "x <- m ;; k" := (bind m (fun x => k))
  (at level 61, m at next level, right associativity) : io_scope.
Notation "m ;;; k" := (bind m (fun _ => k))
  (at level 61, right associativity) : io_scope.

(** [print(text)] *)
Definition print (text : string) : io unit := emit (Print text).

(** [input(prompt)]: shows the prompt and reads one line; [EOFError]
    when the input is exhausted. *)
Definition input (prompt : string) : io string :=
  fun _ st =>
    let lg := log st ++ [Prompt prompt] in
    match stdin st with
    | line :: rest => (Ok line, mkState rest lg)
    | [] => (Raise EOFError, mkState [] lg)
    end.

(** [grid.rio.to_raster(path)] *)
Definition to_raster (r : raster) (path : string) : io unit :=
  (en <- ask;;
   if writable en path then emit (Written path r) else raise OSError)%io.

(** [grid.rio.write_crs(name)] *)
Definition write_crs (s : selected) (name : string) : raster :=
  mkRaster name s.

(* ================================================================== *)
(** * The script *)

Section Script.

Local Open Scope string_scope.
Local Open Scope io_scope.

(** [get_dataset(container_name, zarr_prefix, sas)].  Concatenating the
    endpoint with a credential that is [None] is a [TypeError]; the
    client and the store handle are built without contacting the
    store, [xr.open_zarr] contacts it. *)
Definition get_dataset (container_name zarr_prefix : string)
  (sas : option string) : io Dataset :=
  url <- lift (match sas with
               | Some sas =>
                   Ok ("https://climatedataprod.blob.core.windows.net?"
                         ++ sas)
               | None => Raise TypeError
               end);;
  emit (Fetch url container_name zarr_prefix);;;
  en <- ask;;
  match open_zarr en url container_name zarr_prefix with
  | Some ds => ret ds
  | None => raise DataSourceUnavailable
  end.

(** [ds[name]] *)
Definition getitem (ds : Dataset) (name : string) : result SourceArray :=
  match ds name with
  | Some a => Ok a
  | None => Raise KeyError
  end.

(** The body of each [try] of [get_month_year]: parse, then check
    the range. *)
Definition parse_in_range (py : Py.interpreter) (text : string)
  (lo hi : Z) : result Z :=
  (n <- Py.int py text;;
   if (n <? lo)%Z || (n >? hi)%Z then Raise ValueError else Ok n)%result.

Definition get_month_year : io (option Z * option Z) :=
  en <- ask;;
  let default_month := month (today en) in
  let default_year := year (today en) in
  line <- input ("Enter year [default: " ++ Py.str default_year ++ "]: ");;
  let year_input := Py.or_ line (Py.str default_year) in
  match parse_in_range (python en) year_input 1900 2100 with
  | Raise ValueError =>
      print "Invalid year. Please enter a 4-digit number.";;;
      ret (None, None)
  | Raise e => raise e
  | Ok year =>
      line <- input ("Enter month (1-12) [default: "
                       ++ Py.str default_month ++ "]: ");;
      let month_input := Py.or_ line (Py.str default_month) in
      match parse_in_range (python en) month_input 1 12 with
      | Raise ValueError =>
          print "Invalid month. Please enter a number from 1 to 12.";;;
          ret (None, None)
      | Raise e => raise e
      | Ok month => ret (Some year, Some month)
      end
  end.

(** [f"{family}_prcnt_of_norm_{month_str}_{year}.tif"] *)
Definition output_filename (family month_str : string) (year : Z)
  : string :=
  family ++ "_prcnt_of_norm_" ++ month_str ++ "_" ++ Py.str year ++ ".tif".

Definition main : io unit :=
  ym <- get_month_year;;
  match ym with
  | (Some year, Some month) =>
      en <- ask;;
      (* Import the snodas dataset *)
      snodas_ds <- get_dataset "snodas-v1" "snodas.zarr" (SNODAS_SAS en);;
      print "snodas dataset loaded";;;
      (* Get a spatial subset of the snodas dataset *)
      snodas_var <- lift (getitem snodas_ds "1034");;
      let snodas_da :=
        sel_xy snodas_var
               ((-14528544.60)%Q, (-10528544.60)%Q)
               (5915989.877651%Q, 7255989.877651%Q) in
      (* import the copernicus dataset *)
      copernicus_ds <-
        get_dataset "copernicus" "copernicus.zarr" (COPERNICUS_SAS en);;
      print "copernicus dataset loaded";;;
      cop_var <- lift (getitem copernicus_ds "swe");;
      let cop_da :=
        sel_xy cop_var
               ((-15029545)%Q, (-10929545)%Q)
               (5963905%Q, 8263905%Q) in
      (* Get normals for the specified month and year *)
      snodas_normals <- lift (get_normals snodas_da year month true);;
      copernicus_normals <- lift (get_normals cop_da year month false);;
      print "processing percent of normal";;;
      snodas_percent_of_normal <-
        lift (get_percent_of_normal snodas_da snodas_normals
                                    year month true);;
      copernicus_percent_of_normal <-
        lift (get_percent_of_normal cop_da copernicus_normals
                                    year month false);;
      let snodas_percent_of_normal :=
        write_crs snodas_percent_of_normal "EPSG:3857" in
      let copernicus_percent_of_normal :=
        write_crs copernicus_percent_of_normal "EPSG:3857" in
      (* Export with dynamic filename *)
      date <- lift (Py.dt_date year month 1);;
      let month_str := Py.lower (Py.strftime_b date) in
      let snodas_output_filename :=
        output_filename "snodas" month_str year in
      to_raster snodas_percent_of_normal snodas_output_filename;;;
      print ("Saved percent-of-normal raster to: "
               ++ snodas_output_filename);;;
      let copernicus_output_filename :=
        output_filename "copernicus" month_str year in
      to_raster copernicus_percent_of_normal copernicus_output_filename;;;
      print ("Saved percent-of-normal raster to: "
               ++ copernicus_output_filename)
  | _ =>
      print "Exiting due to invalid input."
  end.

End Script.

(** Running a program from a given input, with an empty log. *)
Definition run {A} (m : io A) (en : env) (lines : list string)
  : result A * state :=
  m en (mkState lines []).

(* ================================================================== *)
(** * The temporal anchor conventions and the normals as described *)

(** The regional convention is the one [snodas=True] selects, the global
    one the one [snodas=False] selects. *)
Definition earliest_year (snodas : bool) : Z := if snodas then 2008 else 2000.

Definition anchor_hour (snodas : bool) : Z := if snodas then 5 else 0.

(** The anchor timestamp of a year and month: day 1 at the anchor hour. *)
Definition anchor (y m : Z) (snodas : bool) : datetime :=
  mkdt y m 1 (anchor_hour snodas) 0 0 0.

(** The January anchor of a year at a given hour. *)
Definition january (h y : Z) : datetime := mkdt y 1 1 h 0 0 0.

Definition valid_year (y : Z) : Prop := 1900 <= y <= 2100.
Definition valid_month (m : Z) : Prop := 1 <= m <= 12.

(** The integers from [lo] through [hi], none when [hi < lo]. *)
Definition zrange (lo hi : Z) : list Z :=
  map (fun k => lo + Z.of_nat k) (seq 0 (Z.to_nat (hi - lo + 1))).

(** The time mean of the timesteps of [da] whose timestamp is one of
    [dates]. *)
Definition normals_over (da : DataArray) (dates : list datetime) : grid :=
  mean_time
    (mkDataArray (shape da)
       (filter (fun e => existsb (datetime_eqb (fst e)) dates) (entries da))).

(** The candidates as the design describes them: the anchor of the given
    month in every year from the earliest valid year through
    [year - 1]. *)
Definition described_candidates (year month : Z) (snodas : bool)
  : list datetime :=
  map (fun y => anchor y month snodas)
      (zrange (earliest_year snodas) (year - 1)).

Definition described_normals (da : DataArray) (year month : Z)
  (snodas : bool) : grid :=
  normals_over da (described_candidates year month snodas).

(** The candidates [pd.date_range] produces: January anchors, from the
    earliest valid year when the month is January and from the year
    after it otherwise. *)
Definition produced_candidates (year month : Z) (snodas : bool)
  : list datetime :=
  map (fun y => anchor y 1 snodas)
      (zrange (if month =? 1 then earliest_year snodas
               else earliest_year snodas + 1)
              (year - 1)).

(** The lowercase month abbreviations of the output file names. *)
Definition month_abbrev (m : Z) : string :=
  nth (Z.to_nat (m - 1))
      ["jan"; "feb"; "mar"; "apr"; "may"; "jun";
       "jul"; "aug"; "sep"; "oct"; "nov"; "dec"]%string ""%string.

(** The events of the console, as opposed to those that reach a store or
    the disk. *)
Definition is_console (e : event) : Prop :=
  match e with
  | Prompt _ | Print _ => True
  | Fetch _ _ _ | Written _ _ => False
  end.

Definition is_written (e : event) : Prop :=
  match e with
  | Written _ _ => True
  | _ => False
  end.

(** The two prompts, and the text that is parsed for each field: the
    line typed, or the default when the line is empty. *)
Definition year_prompt (en : env) : string :=
  ("Enter year [default: " ++ Py.str (year (today en)) ++ "]: ")%string.

Definition month_prompt (en : env) : string :=
  ("Enter month (1-12) [default: " ++ Py.str (month (today en))
     ++ "]: ")%string.

Definition year_text (en : env) (line : string) : string :=
  Py.or_ line (Py.str (year (today en))).

Definition month_text (en : env) (line : string) : string :=
  Py.or_ line (Py.str (month (today en))).

Definition invalid_year_message : string :=
  "Invalid year. Please enter a 4-digit number."%string.

Definition invalid_month_message : string :=
  "Invalid month. Please enter a number from 1 to 12."%string.

Definition exit_message : string := "Exiting due to invalid input."%string.

Definition in_range (n lo hi : Z) : bool := (lo <=? n) && (n <=? hi).

(** The root of both stores, and a store that cannot be opened with the
    credential of the environment. *)
Definition endpoint : string :=
  "https://climatedataprod.blob.core.windows.net?"%string.

Definition unavailable (en : env) (container prefix : string)
  (sas : option string) : Prop :=
  exists s, sas = Some s
            /\ open_zarr en (endpoint ++ s)%string container prefix = None.

(** The output file name as the design gives it:
    [{family}_prcnt_of_norm_{month abbreviation}_{year}.tif]. *)
Definition raster_path (family : string) (y m : Z) : string :=
  (family ++ "_prcnt_of_norm_" ++ month_abbrev m ++ "_" ++ Py.str y
          ++ ".tif")%string.

(** A text the resolver rejects for the range [lo .. hi]. *)
(** The number of digits of the decimal text of [n]. *)
Definition str_digits (n : Z) : N :=
  match n with
  | Z0 => 1
  | Zpos p | Zneg p => N.of_nat (Decimal.nb_digits (Pos.to_uint p))
  end.

Definition rejected (py : Py.interpreter) (text : string) (lo hi : Z)
  : Prop :=
  Py.int py text = Raise ValueError
  \/ exists n, Py.int py text = Ok n /\ (n < lo \/ hi < n).

(* ================================================================== *)
(** * Sample data *)

Module Sample.

Local Open Scope string_scope.

Definition px (n : Z) : grid := [[F64.of_Z n]].

(** A one-cell regional series with a January and a March anchor in
    2022 and the March anchor of 2023. *)
Definition regional : DataArray :=
  mkDataArray (1, 1)%nat
    [(anchor 2022 1 true, px 30);
     (anchor 2022 3 true, px 10);
     (anchor 2023 3 true, px 20)].

Definition global : DataArray :=
  mkDataArray (1, 1)%nat
    [(anchor 2022 1 false, px 30);
     (anchor 2022 3 false, px 10);
     (anchor 2023 3 false, px 20)].

(** A one-cell regional series that starts with the January anchor of
    2008. *)
Definition from_2008 : DataArray :=
  mkDataArray (1, 1)%nat
    [(anchor 2008 1 true, px 7);
     (anchor 2009 1 true, px 9)].

(** A one-cell regional series without snow on either January
    anchor. *)
Definition bare : DataArray :=
  mkDataArray (1, 1)%nat
    [(anchor 2022 1 true, [[F64.zero]]);
     (anchor 2023 1 true, [[F64.zero]])].

Definition snodas_ds : Dataset :=
  fun name =>
    if String.eqb name "1034"
    then Some (mkSourceArray (fun _ _ => regional)) else None.

Definition copernicus_ds : Dataset :=
  fun name =>
    if String.eqb name "swe"
    then Some (mkSourceArray (fun _ _ => global)) else None.

Definition clock : datetime := mkdt 2024 11 3 10 30 0 0.

(** The part of a continuation byte of UTF-8 that belongs to the code
    point. *)
Definition continuation (c : ascii) : option N :=
  let b := N_of_ascii c in
  if ((128 <=? b) && (b <? 192))%N then Some (b - 128)%N else None.

(** The code point of a well-formed sequence of two, three or four
    bytes at the head of the text, and the text after it. *)
Definition sequence (b : N) (rest : string) : option (N * string) :=
  match rest with
  | String c1 rest1 =>
      match continuation c1 with
      | Some k1 =>
          if ((194 <=? b) && (b <? 224))%N
          then Some (((b - 192) * 64 + k1)%N, rest1)
          else
            match rest1 with
            | String c2 rest2 =>
                match continuation c2 with
                | Some k2 =>
                    if ((224 <=? b) && (b <? 240))%N then
                      let ch := ((b - 224) * 4096 + k1 * 64 + k2)%N in
                      if ((2048 <=? ch)
                          && negb ((55296 <=? ch) && (ch <? 57344)))%N
                      then Some (ch, rest2) else None
                    else
                      match rest2 with
                      | String c3 rest3 =>
                          match continuation c3 with
                          | Some k3 =>
                              let ch :=
                                ((b - 240) * 262144 + k1 * 4096
                                 + k2 * 64 + k3)%N in
                              if ((240 <=? b) && (b <? 245)
                                  && (65536 <=? ch) && (ch <? 1114112))%N
                              then Some (ch, rest3) else None
                          | None => None
                          end
                      | EmptyString => None
                      end
                | None => None
                end
            | EmptyString => None
            end
      | None => None
      end
  | EmptyString => None
  end.

(** The code points of a line held as UTF-8; a byte outside a
    well-formed sequence stands for its lone surrogate, as under
    [surrogateescape].  The budget is the number of bytes. *)
Fixpoint utf8_from (budget : nat) (s : string) : list N :=
  match budget, s with
  | S budget', String c rest =>
      let b := N_of_ascii c in
      if (b <? 128)%N then b :: utf8_from budget' rest
      else
        match sequence b rest with
        | Some (ch, rest') => ch :: utf8_from budget' rest'
        | None => (56320 + b)%N :: utf8_from budget' rest
        end
  | _, _ => []
  end.

Definition utf8 (s : string) : list N := utf8_from (String.length s) s.

(** [str.isspace] above ASCII in Unicode 14. *)
Definition unicode_space (ch : N) : bool :=
  ((ch =? 0x85) || (ch =? 0xa0) || (ch =? 0x1680)
   || (0x2000 <=? ch) && (ch <=? 0x200a)
   || (ch =? 0x2028) || (ch =? 0x2029) || (ch =? 0x202f)
   || (ch =? 0x205f) || (ch =? 0x3000))%N.

(** The zeros of the decimal digits above ASCII in Unicode 14; the nine
    code points after each are the digits one to nine. *)
Definition decimal_zeros : list N :=
  [
   0x660; 0x6f0; 0x7c0; 0x966; 0x9e6; 0xa66;
   0xae6; 0xb66; 0xbe6; 0xc66; 0xce6; 0xd66;
   0xde6; 0xe50; 0xed0; 0xf20; 0x1040; 0x1090;
   0x17e0; 0x1810; 0x1946; 0x19d0; 0x1a80; 0x1a90;
   0x1b50; 0x1bb0; 0x1c40; 0x1c50; 0xa620; 0xa8d0;
   0xa900; 0xa9d0; 0xa9f0; 0xaa50; 0xabf0; 0xff10;
   0x104a0; 0x10d30; 0x11066; 0x110f0; 0x11136; 0x111d0;
   0x112f0; 0x11450; 0x114d0; 0x11650; 0x116c0; 0x11730;
   0x118e0; 0x11950; 0x11c50; 0x11d50; 0x11da0; 0x16a60;
   0x16ac0; 0x16b50; 0x1d7ce; 0x1d7d8; 0x1d7e2; 0x1d7ec;
   0x1d7f6; 0x1e140; 0x1e2f0; 0x1e950; 0x1fbf0
  ]%N.

Definition unicode_decimal (ch : N) : option N :=
  match find (fun z => (z <=? ch) && (ch <? z + 10))%N decimal_zeros with
  | Some z => Some (ch - z)%N
  | None => None
  end.

(** CPython 3.11 as it starts: UTF-8 lines, the tables of Unicode 14 and
    the limit of 4300 digits. *)
Definition cpython : Py.interpreter :=
  Py.mkInterpreter utf8 unicode_space unicode_decimal 4300.

(** Lines a user can type. *)
Definition bytes (bs : list Z) : string :=
  fold_right (fun b s => String (ascii_of_N (Z.to_N b)) s) EmptyString bs.

Fixpoint zeros (n : nat) : string :=
  match n with
  | O => EmptyString
  | S n' => String "0" (zeros n')
  end.

(** 2023 after the file separator U+001C, and before the unit separator
    U+001F. *)
Definition separator_2023 : string := bytes [28] ++ "2023".
Definition year_2023_separator : string := "2023" ++ bytes [31].

(** 2023 after a no-break space U+00A0. *)
Definition nbsp_2023 : string := bytes [194; 160] ++ "2023".

(** 2023 in the full-width digits U+FF12 U+FF10 U+FF12 U+FF13. *)
Definition fullwidth_2023 : string :=
  bytes [239; 188; 146; 239; 188; 144; 239; 188; 146; 239; 188; 147].

(** 2023 after [n] zeros. *)
Definition padded_2023 (n : nat) : string := zeros n ++ "2023".

(** Both stores reachable. *)
Definition healthy : env :=
  mkEnv clock (Some "sig=r") (Some "sig=g")
        (fun _ container _ =>
           if String.eqb container "snodas-v1" then Some snodas_ds
           else Some copernicus_ds)
        (fun _ => true) cpython.

(** The regional store cannot be opened, the global one can. *)
Definition regional_down : env :=
  mkEnv clock (Some "sig=r") (Some "sig=g")
        (fun _ container _ =>
           if String.eqb container "snodas-v1" then None
           else Some copernicus_ds)
        (fun _ => true) cpython.

(** The global store cannot be opened, the regional one can. *)
Definition global_down : env :=
  mkEnv clock (Some "sig=r") (Some "sig=g")
        (fun _ container _ =>
           if String.eqb container "snodas-v1" then Some snodas_ds
           else None)
        (fun _ => true) cpython.

End Sample.

(* ================================================================== *)
(** * Vocabulary of the further properties *)

(** The first year [pd.date_range] yields for a month: the earliest valid
    year for January, the year after it for any other month. *)
Definition first_candidate_year (m : Z) (snodas : bool) : Z :=
  if m =? 1 then earliest_year snodas else earliest_year snodas + 1.

(** A timestamp [get_normals] averages over for the target [(y, m)]: the
    January anchor of its own year, that year between the first candidate
    year and [y - 1]. *)
Definition is_candidate (y m : Z) (snodas : bool) (t : datetime) : bool :=
  datetime_eqb t (anchor (year t) 1 snodas)
  && (first_candidate_year m snodas <=? year t) && (year t <=? y - 1).

Definition cell_is_zero (x : F64.cell) : bool :=
  match x with
  | S754_zero _ => true
  | _ => false
  end.

Definition cell_is_infinite (x : F64.cell) : bool :=
  match x with
  | S754_infinity _ => true
  | _ => false
  end.

(** The series cut down to the timesteps a predicate on timestamps
    keeps. *)
Definition keep_times (p : datetime -> bool) (da : DataArray) : DataArray :=
  mkDataArray (shape da) (filter (fun e => p (fst e)) (entries da)).

(** The two spatial subsets [main] takes. *)
Definition regional_subset (v : SourceArray) : DataArray :=
  sel_xy v ((-14528544.60)%Q, (-10528544.60)%Q)
           (5915989.877651%Q, 7255989.877651%Q).

Definition global_subset (v : SourceArray) : DataArray :=
  sel_xy v ((-15029545)%Q, (-10929545)%Q) (5963905%Q, 8263905%Q).

(** The raster of one family: the normals of a series, the percent of
    normal of the same series against them, tagged EPSG:3857. *)
Definition percent_raster (da : DataArray) (y m : Z) (snodas : bool)
  : result raster :=
  (normals <- get_normals da y m snodas;;
   percent <- get_percent_of_normal da normals y m snodas;;
   Ok (write_crs percent "EPSG:3857"))%result.

(** The environment holds the credential [s], and the store it opens at
    [container]/[prefix] holds the variable [var] as [v]. *)
Definition serves (en : env) (sas : option string)
  (s container prefix var : string) (v : SourceArray) : Prop :=
  sas = Some s
  /\ exists ds, open_zarr en (endpoint ++ s)%string container prefix = Some ds
                /\ ds var = Some v.

Definition saved_message (path : string) : string :=
  ("Saved percent-of-normal raster to: " ++ path)%string.

(* ================================================================== *)
(** * Sample runs *)

Module Scenario.

Local Open Scope string_scope.

Definition regional_var : SourceArray :=
  mkSourceArray (fun _ _ => Sample.regional).

Definition global_var : SourceArray :=
  mkSourceArray (fun _ _ => Sample.global).

(** The percent of normal of March 2023 in the sample series: 20 over the
    normal 30 of the January anchor of 2022. *)
Definition march_2023 : raster :=
  mkRaster "EPSG:3857" (One (percent_grid (Sample.px 20) (Sample.px 30))).

Definition prompts : list event :=
  [Prompt (year_prompt Sample.healthy); Prompt (month_prompt Sample.healthy)].

(** Both stores reachable, and a disk that takes the regional raster of
    March 2023 only. *)
Definition disk_fills_up : env :=
  mkEnv Sample.clock (Some "sig=r") (Some "sig=g")
        (open_zarr Sample.healthy)
        (fun path => String.eqb path "snodas_prcnt_of_norm_mar_2023.tif")
        Sample.cpython.

(** The regional credential is not in the environment. *)
Definition no_regional_credential : env :=
  mkEnv Sample.clock None (Some "sig=g") (open_zarr Sample.healthy)
        (fun _ => true) Sample.cpython.

(** The regional store opens to a dataset without the variable. *)
Definition no_regional_variable : env :=
  mkEnv Sample.clock (Some "sig=r") (Some "sig=g")
        (fun _ container _ =>
           if String.eqb container "snodas-v1" then Some (fun _ => None)
           else Some Sample.copernicus_ds)
        (fun _ => true) Sample.cpython.

End Scenario.

(** The two dataset families of the output file names. *)
Definition is_family (f : string) : Prop :=
  f = "snodas"%string \/ f = "copernicus"%string.

(* ================================================================== *)
(** * Properties *)

(** ** Timestamps *)

Lemma datetime_eqb_eq (a b : datetime) : datetime_eqb a b = true <-> a = b.
Proof.
  unfold datetime_eqb. destruct a, b; cbn.
  rewrite !andb_true_iff, !Z.eqb_eq. split.
  - intros [[[[[[-> ->] ->] ->] ->] ->] ->]. reflexivity.
  - intros H; injection H; intros; subst; repeat split.
Qed.

Lemma datetime_eqb_refl (a : datetime) : datetime_eqb a a = true.
Proof. apply datetime_eqb_eq. reflexivity. Qed.

Lemma datetime_compare_year_lt (a b : datetime) :
  year a < year b -> datetime_compare a b = Lt.
Proof.
  intros H. unfold datetime_compare, fields. cbn.
  apply Z.compare_lt_iff in H. rewrite H. reflexivity.
Qed.

Lemma datetime_compare_year_gt (a b : datetime) :
  year b < year a -> datetime_compare a b = Gt.
Proof.
  intros H. unfold datetime_compare, fields. cbn.
  apply Z.compare_gt_iff in H. rewrite H. reflexivity.
Qed.

Lemma in_bounds_year (t : datetime) :
  1678 <= year t <= 2261 -> Pandas.in_bounds t = true.
Proof.
  intros [Hlo Hhi]. unfold Pandas.in_bounds, datetime_leb.
  rewrite (datetime_compare_year_lt Pandas.Timestamp_min t) by (cbn; lia).
  rewrite (datetime_compare_year_lt t Pandas.Timestamp_max) by (cbn; lia).
  reflexivity.
Qed.

(** ** [pd.date_range] with the ["AS"] frequency *)

Lemma zrange_empty (lo hi : Z) : hi < lo -> zrange lo hi = [].
Proof.
  intros H. unfold zrange.
  replace (Z.to_nat (hi - lo + 1)) with 0%nat by lia. reflexivity.
Qed.

Lemma zrange_cons (lo hi : Z) :
  lo <= hi -> zrange lo hi = lo :: zrange (lo + 1) hi.
Proof.
  intros H. unfold zrange.
  replace (Z.to_nat (hi - lo + 1)) with (S (Z.to_nat (hi - (lo + 1) + 1)))
    by lia.
  cbn [seq map]. f_equal; [lia|].
  rewrite <- seq_shift, map_map. apply map_ext. intros k. lia.
Qed.

Lemma in_zrange (lo hi y : Z) : In y (zrange lo hi) <-> lo <= y <= hi.
Proof.
  unfold zrange. rewrite in_map_iff. split.
  - intros [k [<- Hk]]. apply in_seq in Hk. lia.
  - intros H. exists (Z.to_nat (y - lo)). split; [lia|].
    apply in_seq. lia.
Qed.

Lemma datetime_compare_refl (a : datetime) : datetime_compare a a = Eq.
Proof.
  unfold datetime_compare, fields. cbn. now rewrite !Z.compare_refl.
Qed.

Lemma datetime_compare_month_lt (a b : datetime) :
  year a = year b -> month a < month b -> datetime_compare a b = Lt.
Proof.
  intros Hy H. unfold datetime_compare, fields. cbn.
  rewrite Hy, Z.compare_refl.
  apply Z.compare_lt_iff in H. rewrite H. reflexivity.
Qed.

Lemma YearBegin_forward (t : datetime) :
  1 <= month t -> 1 <= day t ->
  Pandas.YearBegin_apply 1 t
  = Pandas.Timestamp (mkdt (year t + 1) 1 1 (hour t) (minute t) (second t)
                           (nanosecond t)).
Proof.
  intros Hm Hd. unfold Pandas.YearBegin_apply, Pandas.roll_qtrday,
    Pandas.shift_month, Pandas.AS_month.
  replace (0 <? 1) with true by reflexivity.
  replace (month t - 1 <? 0) with false by lia.
  replace (day t <? 1) with false by lia.
  rewrite andb_false_r. cbn [orb].
  replace (month t + (1 * 12 + (1 - month t))) with 13 by lia.
  reflexivity.
Qed.

Lemma YearBegin_backward_on_offset (t : datetime) :
  month t = 1 -> day t = 1 ->
  Pandas.YearBegin_apply (-1) t
  = Pandas.Timestamp (mkdt (year t - 1) 1 1 (hour t) (minute t) (second t)
                           (nanosecond t)).
Proof.
  intros Hm Hd. unfold Pandas.YearBegin_apply, Pandas.roll_qtrday,
    Pandas.shift_month, Pandas.AS_month.
  rewrite Hm, Hd. reflexivity.
Qed.

Lemma Timestamp_in_range (t : datetime) :
  1678 <= year t <= 2261 -> Pandas.Timestamp t = Ok t.
Proof.
  intros H. unfold Pandas.Timestamp. now rewrite in_bounds_year.
Qed.

(** The loop started on a January anchor walks the January anchors up to
    the year of the end point, whatever the month of the end point, when
    the budget covers the years in between. *)
Lemma generate_loop_january (budget : nat) :
  forall h y ye m,
    1678 <= y -> ye <= 2260 -> 1 <= m ->
    (Z.to_nat (ye - y + 1) <= budget)%nat ->
    Pandas.generate_loop budget (january h y) (mkdt ye m 1 h 0 0 0)
    = Ok (map (january h) (zrange y ye)).
Proof.
  induction budget as [|n IH]; intros h y ye m Hy Hye Hm Hb.
  - assert (ye < y) by lia.
    rewrite zrange_empty by lia. cbn [Pandas.generate_loop].
    unfold datetime_leb.
    rewrite datetime_compare_year_gt by (cbn; lia). reflexivity.
  - cbn [Pandas.generate_loop].
    destruct (Z.ltb_spec ye y) as [Hlt|Hle].
    + rewrite zrange_empty by lia. unfold datetime_leb.
      rewrite datetime_compare_year_gt by (cbn; lia). reflexivity.
    + rewrite zrange_cons by lia. cbn [map].
      assert (Hleb : datetime_leb (january h y) (mkdt ye m 1 h 0 0 0) = true).
      { unfold datetime_leb.
        destruct (Z.eq_dec y ye) as [->|Hne].
        - destruct (Z.eq_dec m 1) as [->|Hm1].
          + unfold january. now rewrite datetime_compare_refl.
          + rewrite datetime_compare_month_lt by (cbn; lia). reflexivity.
        - rewrite datetime_compare_year_lt by (cbn; lia). reflexivity. }
      rewrite Hleb.
      destruct (datetime_eqb (january h y) (mkdt ye m 1 h 0 0 0)) eqn:He.
      * apply datetime_eqb_eq in He. unfold january in He.
        injection He as -> <-. rewrite zrange_empty by lia. reflexivity.
      * rewrite YearBegin_forward by (cbn; lia).
        cbn [year hour minute second nanosecond january].
        rewrite Timestamp_in_range by (cbn; lia). cbn [rbind].
        unfold datetime_leb at 1.
        rewrite datetime_compare_year_gt by (cbn; lia).
        change (mkdt (y + 1) 1 1 h 0 0 0) with (january h (y + 1)).
        rewrite IH by lia. reflexivity.
Qed.

Lemma datetime_compare_month_gt (a b : datetime) :
  year a = year b -> month b < month a -> datetime_compare a b = Gt.
Proof.
  intros Hy H. unfold datetime_compare, fields. cbn.
  rewrite Hy, Z.compare_refl.
  apply Z.compare_gt_iff in H. rewrite H. reflexivity.
Qed.

Lemma days_in_month_pos (y m : Z) : 1 <= days_in_month y m.
Proof.
  unfold days_in_month.
  destruct (m =? 2); [destruct (is_leap y); lia|].
  destruct ((m =? 4) || (m =? 6) || (m =? 9) || (m =? 11)); lia.
Qed.

Lemma fits_c_int_iff (v : Z) :
  fits_c_int v = true <-> - 2147483648 <= v <= 2147483647.
Proof. unfold fits_c_int. lia. Qed.

Lemma dt_datetime_first (y m h : Z) :
  1 <= y <= 9999 -> 1 <= m <= 12 -> 0 <= h <= 23 ->
  dt_datetime y m 1 h = Ok (mkdt y m 1 h 0 0 0).
Proof.
  intros Hy Hm Hh. unfold dt_datetime.
  pose proof (days_in_month_pos y m).
  rewrite (proj2 (fits_c_int_iff y)), (proj2 (fits_c_int_iff m)),
    (proj2 (fits_c_int_iff 1)), (proj2 (fits_c_int_iff h)) by lia.
  cbn [andb].
  replace (1 <=? y) with true by lia. replace (y <=? 9999) with true by lia.
  replace (1 <=? m) with true by lia. replace (m <=? 12) with true by lia.
  replace (1 <=? 1) with true by lia.
  replace (1 <=? days_in_month y m) with true by lia.
  replace (0 <=? h) with true by lia. replace (h <=? 23) with true by lia.
  reflexivity.
Qed.

(** [date_range] between the anchors of one month in two years: the
    start is rolled forward to the next January unless it is one, and
    the range holds January anchors only. *)
Lemma date_range_AS_anchors (h E ye m : Z) :
  1679 <= E <= 2259 -> 1678 <= ye <= 2260 -> 1 <= m <= 12 ->
  Pandas.date_range_AS (mkdt E m 1 h 0 0 0) (mkdt ye m 1 h 0 0 0)
  = Ok (map (january h) (zrange (if m =? 1 then E else E + 1) ye)).
Proof.
  intros HE Hye Hm. unfold Pandas.date_range_AS.
  rewrite !Timestamp_in_range by (cbn; lia). cbn [rbind].
  destruct (Z.eqb_spec m 1) as [->|Hm1].
  - change (Pandas.is_on_offset (mkdt E 1 1 h 0 0 0)) with true.
    change (Pandas.is_on_offset (mkdt ye 1 1 h 0 0 0)) with true.
    cbn [negb rbind]. unfold datetime_ltb.
    destruct (Z.ltb_spec ye E) as [Hlt|Hge].
    + rewrite datetime_compare_year_lt by (cbn; lia).
      rewrite YearBegin_backward_on_offset by reflexivity.
      rewrite Timestamp_in_range by (cbn; lia). cbn [rbind].
      cbn [Pandas.generate_loop]. unfold datetime_leb.
      rewrite datetime_compare_year_gt by (cbn; lia).
      now rewrite zrange_empty by lia.
    + replace (datetime_compare (mkdt ye 1 1 h 0 0 0) (mkdt E 1 1 h 0 0 0))
        with (if ye =? E then Eq else Gt).
      2:{ destruct (Z.eqb_spec ye E) as [->|Hne].
          - now rewrite datetime_compare_refl.
          - now rewrite datetime_compare_year_gt by (cbn; lia). }
      cbn [year].
      replace (match (if ye =? E then Eq else Gt) with
               | Lt => true
               | _ => false
               end)
        with false by (destruct (ye =? E); reflexivity).
      apply (generate_loop_january _ h E ye 1); lia.
  - assert (Hoff : Pandas.is_on_offset (mkdt E m 1 h 0 0 0) = false).
    { unfold Pandas.is_on_offset, Pandas.AS_month. cbn.
      apply Z.eqb_neq in Hm1. now rewrite Hm1. }
    rewrite Hoff. cbn [negb]. unfold Pandas.rollforward. rewrite Hoff.
    rewrite YearBegin_forward by (cbn; lia).
    cbn [year hour minute second nanosecond].
    rewrite Timestamp_in_range by (cbn; lia). cbn [rbind].
    unfold datetime_ltb.
    destruct (Z.ltb_spec ye (E + 1)) as [Hlt|Hge].
    + rewrite datetime_compare_year_lt by (cbn; lia).
      rewrite YearBegin_backward_on_offset by reflexivity.
      rewrite Timestamp_in_range by (cbn; lia). cbn [rbind].
      cbn [Pandas.generate_loop]. unfold datetime_leb.
      rewrite datetime_compare_year_gt by (cbn; lia).
      now rewrite zrange_empty by lia.
    + replace (datetime_compare (mkdt ye m 1 h 0 0 0)
                                 (mkdt (E + 1) 1 1 h 0 0 0)) with Gt.
      2:{ destruct (Z.eq_dec ye (E + 1)) as [->|Hne].
          - now rewrite datetime_compare_month_gt by (cbn; lia).
          - now rewrite datetime_compare_year_gt by (cbn; lia). }
      cbn [year].
      apply (generate_loop_january _ h (E + 1) ye m); lia.
Qed.

(** What [get_normals] asks the series for, on validated input. *)
Lemma month_firsts_produced (year month : Z) (snodas : bool) :
  valid_year year -> valid_month month ->
  month_firsts year month snodas
  = Ok (produced_candidates year month snodas).
Proof.
  intros Hy Hm. unfold valid_year, valid_month in *.
  unfold month_firsts, produced_candidates.
  destruct snodas; cbn [earliest_year anchor_hour];
    rewrite !dt_datetime_first by lia; cbn [rbind];
    rewrite date_range_AS_anchors by lia; reflexivity.
Qed.

(** ** Selections on the time index *)

Lemma sel_mask_isin (da : DataArray) (dates : list datetime) :
  sel_mask da (isin (time da) dates)
  = mkDataArray (shape da)
      (filter (fun e => existsb (datetime_eqb (fst e)) dates) (entries da)).
Proof.
  unfold sel_mask, isin, time. f_equal.
  induction (entries da) as [|e es IH]; [reflexivity|].
  cbn [map combine filter fst]. rewrite <- IH.
  destruct (existsb (datetime_eqb (fst e)) dates); reflexivity.
Qed.

Lemma existsb_datetime_In (t : datetime) (dates : list datetime) :
  existsb (datetime_eqb t) dates = true <-> In t dates.
Proof.
  rewrite existsb_exists. split.
  - intros [x [Hx He]]. apply datetime_eqb_eq in He. now subst.
  - intros H. exists t. split; [assumption|apply datetime_eqb_refl].
Qed.

Lemma get_normals_produced (da : DataArray) (y m : Z) (snodas : bool) :
  valid_year y -> valid_month m ->
  get_normals da y m snodas
  = Ok (normals_over da (produced_candidates y m snodas)).
Proof.
  intros Hy Hm. unfold get_normals, month_firsts_da.
  rewrite month_firsts_produced by assumption. cbn [rbind].
  now rewrite sel_mask_isin.
Qed.

(** For January the code and the description agree. *)
Lemma get_normals_january_as_described (da : DataArray) (y : Z)
  (snodas : bool) :
  valid_year y ->
  get_normals da y 1 snodas = Ok (described_normals da y 1 snodas).
Proof.
  intros Hy. rewrite get_normals_produced by (unfold valid_month; auto; lia).
  reflexivity.
Qed.

Lemma filter_label_absent (es : list (datetime * grid)) (t : datetime) :
  ~ In t (map fst es) ->
  filter (fun e => datetime_eqb (fst e) t) es = [].
Proof.
  induction es as [|e es IH]; intros H; [reflexivity|].
  cbn [filter]. destruct (datetime_eqb (fst e) t) eqn:He.
  - apply datetime_eqb_eq in He. exfalso. apply H. left. assumption.
  - apply IH. intros Hin. apply H. right. assumption.
Qed.

Lemma filter_label_unique (es : list (datetime * grid)) (t : datetime)
  (g : grid) :
  NoDup (map fst es) -> In (t, g) es ->
  filter (fun e => datetime_eqb (fst e) t) es = [(t, g)].
Proof.
  induction es as [|e es IH]; intros Hnd Hin; [contradiction|].
  cbn [map] in Hnd. inversion Hnd as [|? ? Hnotin Hnd']; subst.
  cbn [filter]. destruct Hin as [->|Hin].
  - cbn [fst]. rewrite datetime_eqb_refl.
    now rewrite filter_label_absent.
  - destruct (datetime_eqb (fst e) t) eqn:He.
    + apply datetime_eqb_eq in He. exfalso. apply Hnotin. rewrite He.
      change t with (fst (t, g)). now apply in_map.
    + now apply IH.
Qed.

Lemma sel_label_absent (da : DataArray) (t : datetime) :
  ~ In t (time da) -> sel_label da t = Raise KeyError.
Proof.
  intros H. unfold sel_label. now rewrite filter_label_absent.
Qed.

Lemma sel_label_unique (da : DataArray) (t : datetime) (g : grid) :
  NoDup (time da) -> In (t, g) (entries da) -> sel_label da t = Ok (One g).
Proof.
  intros Hnd Hin. unfold sel_label.
  now rewrite (filter_label_unique _ t g).
Qed.

(** ** Cells *)

Lemma nth_zip_with {A B C} (f : A -> B -> C) (xs : list A) (ys : list B)
  (i : nat) (dx : A) (dy : B) (d : C) :
  (i < length xs)%nat -> (i < length ys)%nat ->
  nth i (zip_with f xs ys) d = f (nth i xs dx) (nth i ys dy).
Proof.
  revert ys i. induction xs as [|x xs IH]; intros [|y ys] [|i] Hx Hy;
    cbn in *; try lia; [reflexivity|].
  apply IH; lia.
Qed.

Lemma length_zip_with {A B C} (f : A -> B -> C) (xs : list A) (ys : list B) :
  length (zip_with f xs ys) = Nat.min (length xs) (length ys).
Proof.
  revert ys. induction xs as [|x xs IH]; intros [|y ys]; cbn; auto.
Qed.

Lemma cell_at_percent_grid (g normals : grid) (i j : nat) :
  (i < length g)%nat -> (i < length normals)%nat ->
  (j < length (row i g))%nat -> (j < length (row i normals))%nat ->
  cell_at i j (percent_grid g normals)
  = F64.mul (F64.div (cell_at i j g) (cell_at i j normals)) F64.hundred.
Proof.
  intros Hi Hi' Hj Hj'.
  unfold cell_at, percent_grid, grid_map, grid_zip, row in *.
  rewrite (nth_indep _ [] (map (fun q => F64.mul q F64.hundred) [])).
  2:{ rewrite length_map, length_zip_with. now apply Nat.min_glb_lt. }
  rewrite map_nth.
  rewrite (nth_zip_with _ g normals i [] [] []) by assumption.
  rewrite (nth_indep _ F64.nan (F64.mul F64.nan F64.hundred))
    by (rewrite length_map, length_zip_with; now apply Nat.min_glb_lt).
  rewrite (map_nth (fun q => F64.mul q F64.hundred)).
  now rewrite (nth_zip_with _ _ _ j F64.nan F64.nan F64.nan).
Qed.

Lemma div_self (x : F64.cell) :
  F64.is_finite_nonzero x = true -> F64.div x x = F64.of_Z 1.
Proof.
  destruct x as [| | |s m e]; try discriminate. intros _.
  unfold F64.div, SFdiv, SFdiv_core_binary.
  rewrite Z.sub_diag. rewrite Z.sub_diag.
  change (Z.min (fexp F64.prec F64.emax 0) 0) with (-53).
  change (0 - -53) with 53.
  cbv iota beta.
  rewrite Z.shiftl_mul_pow2 by lia.
  assert (Hd : Z.div_eucl (Z.pos m * 2 ^ 53) (Z.pos m) = (2 ^ 53, 0)).
  { pose proof (Z.div_mul (2 ^ 53) (Z.pos m)) as Hq.
    pose proof (Z.mod_mul (2 ^ 53) (Z.pos m)) as Hr.
    unfold Z.div, Z.modulo in Hq, Hr.
    rewrite (Z.mul_comm (Z.pos m)).
    destruct (Z.div_eucl (2 ^ 53 * Z.pos m) (Z.pos m)) as [q r].
    rewrite Hq, Hr by lia. reflexivity. }
  rewrite Hd. rewrite xorb_nilpotent.
  assert (Hl : new_location (Z.pos m) 0 = loc_Exact).
  { unfold new_location. destruct (Z.even (Z.pos m)); reflexivity. }
  rewrite Hl. reflexivity.
Qed.

Lemma percent_of_itself (x : F64.cell) :
  F64.is_finite_nonzero x = true ->
  F64.mul (F64.div x x) F64.hundred = F64.hundred.
Proof. intros H. rewrite div_self by assumption. reflexivity. Qed.

(** ** The normals engine *)

Lemma filter_none {A} (xs : list A) : filter (fun _ => false) xs = [].
Proof. induction xs; auto. Qed.

Lemma month_firsts_da_produced (da : DataArray) (y m : Z) (snodas : bool) :
  valid_year y -> valid_month m ->
  month_firsts_da da y m snodas
  = Ok (mkDataArray (shape da)
          (filter (fun e => existsb (datetime_eqb (fst e))
                                    (produced_candidates y m snodas))
                  (entries da))).
Proof.
  intros Hy Hm. unfold month_firsts_da.
  rewrite month_firsts_produced by assumption. cbn [rbind].
  now rewrite sel_mask_isin.
Qed.

Lemma in_produced_candidates (t : datetime) (y m : Z) (snodas : bool) :
  In t (produced_candidates y m snodas) ->
  exists cy, t = anchor cy 1 snodas /\ earliest_year snodas <= cy <= y - 1.
Proof.
  unfold produced_candidates. rewrite in_map_iff.
  intros [cy [<- Hcy]]. exists cy. split; [reflexivity|].
  apply in_zrange in Hcy. destruct (m =? 1); lia.
Qed.

(** C1, at the input on which the code departs from it: for the target
    March 2023 the regional normals are the mean over the January anchors
    (30 at the only one present, that of 2022), where the March anchors
    of the years 2008 to 2022 were to be averaged (10 at the only one
    present). *)
Theorem normals_of_march_average_january :
  get_normals Sample.regional 2023 3 true = Ok (Sample.px 30)
  /\ described_normals Sample.regional 2023 3 true = Sample.px 10.
Proof. split; vm_compute; reflexivity. Qed.

(** C4: on validated input [get_normals] returns the mean of a selection
    of the series in which every timestamp is strictly earlier than the
    target anchor and lies in a year of at most [y - 1]. *)
Theorem normals_only_earlier_years (da : DataArray) (y m : Z)
  (snodas : bool) :
  valid_year y -> valid_month m ->
  exists selection,
    month_firsts_da da y m snodas = Ok selection
    /\ get_normals da y m snodas = Ok (mean_time selection)
    /\ forall t, In t (time selection) ->
         In t (time da)
         /\ datetime_ltb t (anchor y m snodas) = true
         /\ year t <= y - 1.
Proof.
  intros Hy Hm. eexists. split; [now apply month_firsts_da_produced|].
  split.
  - unfold get_normals. rewrite month_firsts_da_produced by assumption.
    reflexivity.
  - intros t Ht. unfold time in *. cbn [entries] in Ht.
    apply in_map_iff in Ht. destruct Ht as [e [<- He]].
    apply filter_In in He. destruct He as [Hin Hcand].
    apply existsb_datetime_In, in_produced_candidates in Hcand.
    destruct Hcand as [cy [Heq Hcy]]. split; [|split].
    + now apply in_map.
    + rewrite Heq. unfold datetime_ltb.
      rewrite datetime_compare_year_lt by (cbn; lia). reflexivity.
    + rewrite Heq. cbn. lia.
Qed.

Lemma normals_only_earlier_years_witness :
  exists selection,
    month_firsts_da Sample.regional 2023 3 true = Ok selection
    /\ get_normals Sample.regional 2023 3 true = Ok (mean_time selection)
    /\ forall t, In t (time selection) ->
         In t (time Sample.regional)
         /\ datetime_ltb t (anchor 2023 3 true) = true
         /\ year t <= 2023 - 1.
Proof.
  apply (normals_only_earlier_years Sample.regional 2023 3 true);
    unfold valid_year, valid_month; lia.
Defined.

(** C5, as the code has it: the first year [pd.date_range] yields is
    the earliest valid year of the convention for January and the year
    after it for every other month.  For a requested year up to that
    first year, which for every month but January includes the year
    after the earliest valid one, no candidate exists, no timestep is
    selected and [get_normals] returns the all-NaN grid of the spatial
    shape of the series, without raising.  For January of the year after
    the earliest valid one the January anchor of the earliest valid year
    is the one candidate, and the timesteps of the series stamped with
    it are the selection. *)
Theorem normals_undefined_without_candidate_years (da : DataArray)
  (y m : Z) (snodas : bool) :
  valid_year y -> valid_month m ->
  (y <= first_candidate_year m snodas ->
   month_firsts y m snodas = Ok []
   /\ month_firsts_da da y m snodas = Ok (mkDataArray (shape da) [])
   /\ get_normals da y m snodas = Ok (nan_grid (shape da)))
  /\ (y = earliest_year snodas + 1 -> m = 1 ->
      month_firsts y m snodas = Ok [anchor (earliest_year snodas) 1 snodas]
      /\ month_firsts_da da y m snodas
         = Ok (keep_times
                 (fun t =>
                    datetime_eqb t (anchor (earliest_year snodas) 1 snodas))
                 da)).
Proof.
  intros Hy Hm. split.
  - unfold first_candidate_year. intros Hle.
    assert (Hnone : produced_candidates y m snodas = []).
    { unfold produced_candidates.
      rewrite zrange_empty by (destruct (m =? 1); lia). reflexivity. }
    assert (Hsel : month_firsts_da da y m snodas
                   = Ok (mkDataArray (shape da) [])).
    { rewrite month_firsts_da_produced by assumption. rewrite Hnone.
      cbn [existsb]. now rewrite filter_none. }
    split; [rewrite month_firsts_produced by assumption; now rewrite Hnone|].
    split; [assumption|].
    unfold get_normals. rewrite Hsel. reflexivity.
  - intros -> ->.
    assert (Hone : produced_candidates (earliest_year snodas + 1) 1 snodas
                   = [anchor (earliest_year snodas) 1 snodas]).
    { destruct snodas; reflexivity. }
    split; [rewrite month_firsts_produced by assumption; now rewrite Hone|].
    rewrite month_firsts_da_produced by assumption. rewrite Hone.
    unfold keep_times. do 2 f_equal. apply filter_ext.
    intros e. cbn [existsb]. apply orb_false_r.
Qed.

Lemma normals_undefined_without_candidate_years_witness :
  (month_firsts 2009 3 true = Ok []
   /\ month_firsts_da Sample.from_2008 2009 3 true
      = Ok (mkDataArray (shape Sample.from_2008) [])
   /\ get_normals Sample.from_2008 2009 3 true
      = Ok (nan_grid (shape Sample.from_2008)))
  /\ (month_firsts 2009 1 true = Ok [anchor 2008 1 true]
      /\ month_firsts_da Sample.from_2008 2009 1 true
         = Ok (keep_times (fun t => datetime_eqb t (anchor 2008 1 true))
                          Sample.from_2008)).
Proof.
  split.
  - apply (normals_undefined_without_candidate_years
             Sample.from_2008 2009 3 true);
      unfold valid_year, valid_month; cbn; lia.
  - apply (normals_undefined_without_candidate_years
             Sample.from_2008 2009 1 true);
      unfold valid_year, valid_month; cbn; lia.
Defined.

(** C5 fails in January of the year after the earliest valid one: the
    candidate range then holds the earliest valid year itself, so for
    January 2009 the regional anchor of 2008 is selected and the normals
    are its values, not an all-NaN grid. *)
Lemma year_after_earliest_averages_the_earliest :
  month_firsts_da Sample.from_2008 (earliest_year true + 1) 1 true
  = Ok (mkDataArray (1, 1)%nat [(anchor 2008 1 true, Sample.px 7)])
  /\ get_normals Sample.from_2008 (earliest_year true + 1) 1 true
     = Ok (Sample.px 7)
  /\ Sample.px 7 <> nan_grid (shape Sample.from_2008).
Proof.
  split; [vm_compute; reflexivity|].
  split; [vm_compute; reflexivity|].
  vm_compute. discriminate.
Qed.

(** ** The ratio computer *)

Lemma get_percent_of_normal_anchor (da : DataArray) (normals : grid)
  (y m : Z) (snodas : bool) :
  valid_year y -> valid_month m ->
  get_percent_of_normal da normals y m snodas
  = rbind (sel_label da (anchor y m snodas))
          (fun s => Ok (selected_map (fun g => percent_grid g normals) s)).
Proof.
  intros Hy Hm. unfold valid_year, valid_month in *.
  unfold get_percent_of_normal.
  destruct snodas; rewrite dt_datetime_first by lia; reflexivity.
Qed.

Ltac distinct_times :=
  repeat (constructor;
          [cbn; intuition discriminate|]); constructor.

Lemma sel_label_present (da : DataArray) (t : datetime) :
  In t (time da) ->
  exists s,
    sel_label da t = Ok s
    /\ grids s
       = map snd (filter (fun e => datetime_eqb (fst e) t) (entries da)).
Proof.
  intros Hin. unfold sel_label.
  destruct (filter (fun e => datetime_eqb (fst e) t) (entries da))
    as [|e1 [|e2 es]] eqn:Hf.
  - exfalso. unfold time in Hin. apply in_map_iff in Hin.
    destruct Hin as [e [He Hin]].
    assert (Hmem : In e (filter (fun e => datetime_eqb (fst e) t)
                                (entries da))).
    { apply filter_In. split; [assumption|]. now apply datetime_eqb_eq. }
    rewrite Hf in Hmem. contradiction.
  - eexists. split; reflexivity.
  - eexists. split; reflexivity.
Qed.

Lemma in_grids_selected (da : DataArray) (t : datetime) (s : selected)
  (g : grid) :
  sel_label da t = Ok s -> In g (grids s) -> In (t, g) (entries da).
Proof.
  intros Hsel Hg.
  assert (Hg' : In g (map snd (filter (fun e => datetime_eqb (fst e) t)
                                      (entries da)))).
  { unfold sel_label in Hsel.
    destruct (filter (fun e => datetime_eqb (fst e) t) (entries da))
      as [|e1 [|e2 es]]; [discriminate| |];
      injection Hsel as <-; exact Hg. }
  apply in_map_iff in Hg'. destruct Hg' as [[t' g'] [Heq Hin]].
  cbn in Heq. subst g'. apply filter_In in Hin. destruct Hin as [Hin Ht].
  cbn in Ht. apply datetime_eqb_eq in Ht. now subst.
Qed.

(** C2, as the code has it: when the target anchor is a timestep of the
    series, [get_percent_of_normal] returns the selection at that
    timestamp (the one grid stored there, on a time index without
    duplicates) with every grid turned into the grid whose every cell is
    the binary64 product by 100 of the binary64 quotient of the target
    cell by the normals cell, nothing else done to it; a cell in which
    target and normals hold the same finite value other than zero is
    exactly 100. *)
Theorem percent_of_normal_exact (da : DataArray) (normals : grid)
  (y m : Z) (snodas : bool) :
  valid_year y -> valid_month m ->
  In (anchor y m snodas) (time da) ->
  exists s,
    sel_label da (anchor y m snodas) = Ok s
    /\ get_percent_of_normal da normals y m snodas
       = Ok (selected_map (fun g => percent_grid g normals) s)
    /\ (forall g, In g (grids s) -> In (anchor y m snodas, g) (entries da))
    /\ (forall g, NoDup (time da) ->
                  In (anchor y m snodas, g) (entries da) -> s = One g)
    /\ (forall g i j,
          (i < length g)%nat -> (i < length normals)%nat ->
          (j < length (row i g))%nat -> (j < length (row i normals))%nat ->
          cell_at i j (percent_grid g normals)
          = F64.mul (F64.div (cell_at i j g) (cell_at i j normals))
                    F64.hundred
          /\ (cell_at i j g = cell_at i j normals ->
              F64.is_finite_nonzero (cell_at i j g) = true ->
              cell_at i j (percent_grid g normals) = F64.hundred)).
Proof.
  intros Hy Hm Hin.
  destruct (sel_label_present da _ Hin) as [s [Hsel _]].
  exists s. split; [assumption|]. split; [|split; [|split]].
  - rewrite get_percent_of_normal_anchor by assumption. now rewrite Hsel.
  - intros g. now apply in_grids_selected.
  - intros g Hnd Hg. rewrite (sel_label_unique da _ g Hnd Hg) in Hsel.
    now injection Hsel.
  - intros g i j Hi Hi' Hj Hj'.
    rewrite cell_at_percent_grid by assumption. split; [reflexivity|].
    intros <- Hfin. now apply percent_of_itself.
Qed.

Lemma percent_of_normal_exact_witness :
  get_percent_of_normal Sample.regional (Sample.px 20) 2023 3 true
  = Ok (One (percent_grid (Sample.px 20) (Sample.px 20)))
  /\ cell_at 0 0 (percent_grid (Sample.px 20) (Sample.px 20)) = F64.hundred.
Proof.
  destruct (percent_of_normal_exact Sample.regional (Sample.px 20)
              2023 3 true) as [s [_ [Hrun [_ [Hone Hcell]]]]].
  - unfold valid_year; lia.
  - unfold valid_month; lia.
  - cbn. auto.
  - rewrite (Hone (Sample.px 20)) in Hrun.
    + split; [exact Hrun|].
      apply (Hcell (Sample.px 20) 0%nat 0%nat); cbn; auto.
    + distinct_times.
    + cbn. auto.
Defined.

(** C2 fails where target and normals are both zero: on a series without
    snow on the January anchors of 2022 and 2023 the normals cell is 0.0,
    the target cell is 0.0, the two are equal, and the percent-of-normal
    cell is NaN, not 100. *)
Lemma no_snow_is_not_100_percent :
  get_normals Sample.bare 2023 1 true = Ok [[F64.zero]]
  /\ sel_label Sample.bare (anchor 2023 1 true) = Ok (One [[F64.zero]])
  /\ F64.eqb F64.zero F64.zero = true
  /\ get_percent_of_normal Sample.bare [[F64.zero]] 2023 1 true
     = Ok (One [[F64.nan]])
  /\ F64.nan <> F64.hundred.
Proof.
  repeat split; try (vm_compute; reflexivity).
  vm_compute. discriminate.
Qed.

(** C3: when the target anchor is not in the time index,
    [get_percent_of_normal] raises the [KeyError] of the label lookup;
    when it is, the lookup selects the timesteps stored under exactly
    that timestamp and no other, and on a time index without duplicates
    that is the one grid stored there. *)
Theorem percent_of_normal_exact_timestep (da : DataArray) (normals : grid)
  (y m : Z) (snodas : bool) :
  valid_year y -> valid_month m ->
  (~ In (anchor y m snodas) (time da) ->
   get_percent_of_normal da normals y m snodas = Raise KeyError)
  /\ (In (anchor y m snodas) (time da) ->
      exists s,
        sel_label da (anchor y m snodas) = Ok s
        /\ grids s
           = map snd (filter (fun e => datetime_eqb (fst e)
                                                    (anchor y m snodas))
                             (entries da))
        /\ get_percent_of_normal da normals y m snodas
           = Ok (selected_map (fun g => percent_grid g normals) s))
  /\ (NoDup (time da) ->
      forall g, In (anchor y m snodas, g) (entries da) ->
        sel_label da (anchor y m snodas) = Ok (One g)).
Proof.
  intros Hy Hm. split; [|split].
  - intros Habs. rewrite get_percent_of_normal_anchor by assumption.
    now rewrite sel_label_absent.
  - intros Hin. destruct (sel_label_present da _ Hin) as [s [Hsel Hg]].
    exists s. split; [assumption|]. split; [assumption|].
    rewrite get_percent_of_normal_anchor by assumption. now rewrite Hsel.
  - intros Hnd g Hin. now apply sel_label_unique.
Qed.

Lemma percent_of_normal_exact_timestep_witness :
  get_percent_of_normal Sample.regional (Sample.px 30) 2024 3 true
  = Raise KeyError
  /\ sel_label Sample.regional (anchor 2023 3 true) = Ok (One (Sample.px 20)).
Proof.
  split.
  - apply (percent_of_normal_exact_timestep Sample.regional (Sample.px 30)
             2024 3 true).
    + unfold valid_year; lia.
    + unfold valid_month; lia.
    + cbn. intuition discriminate.
  - apply (percent_of_normal_exact_timestep Sample.regional (Sample.px 30)
             2023 3 true).
    + unfold valid_year; lia.
    + unfold valid_month; lia.
    + distinct_times.
    + cbn. auto.
Defined.

(** ** [int(str(n))] *)

Lemma scan_digits_acc (d : Decimal.uint) :
  forall (acc : positive) (k : N),
    Py.scan_digits (NilEmpty.string_of_uint d) false (Z.pos acc) k
    = Some (Z.pos (Pos.of_uint_acc d acc),
            (k + N.of_nat (Decimal.nb_digits d))%N, EmptyString).
Proof.
  induction d; intros acc k;
    cbn [NilEmpty.string_of_uint Pos.of_uint_acc Decimal.nb_digits];
    [now rewrite N.add_0_r| | | | | | | | | |];
    cbn [Py.scan_digits];
    match goal with
    | |- context [Py.digit_value ?c] =>
        let v := eval vm_compute in (Py.digit_value c) in
        change (Py.digit_value c) with v
    end;
    cbv iota beta;
    match goal with
    | |- Py.scan_digits _ false ?a _
         = Some (Z.pos (Pos.of_uint_acc _ ?b), _, _) =>
        replace a with (Z.pos b) by lia
    end;
    rewrite IHd; do 3 f_equal; lia.
Qed.

Lemma scan_digits_zero (d : Decimal.uint) :
  forall k : N,
    Py.scan_digits (NilEmpty.string_of_uint d) false 0 k
    = Some (Z.of_N (Pos.of_uint d),
            (k + N.of_nat (Decimal.nb_digits d))%N, EmptyString).
Proof.
  induction d; intros k;
    cbn [NilEmpty.string_of_uint Pos.of_uint Decimal.nb_digits];
    [now rewrite N.add_0_r| | | | | | | | | |];
    cbn [Py.scan_digits];
    match goal with
    | |- context [Py.digit_value ?c] =>
        let v := eval vm_compute in (Py.digit_value c) in
        change (Py.digit_value c) with v
    end;
    cbv iota beta; cbn [Z.mul Z.add Z.of_N];
    first [rewrite IHd | rewrite scan_digits_acc]; do 3 f_equal; lia.
Qed.

Lemma parse_magnitude_to_uint (p : positive) :
  Py.parse_magnitude (NilZero.string_of_uint (Pos.to_uint p))
  = Some (Z.pos p, str_digits (Z.pos p)).
Proof.
  pose proof (Unsigned.to_uint_nonnil p) as Hnn.
  pose proof (Unsigned.of_to p) as Hof.
  pose proof (scan_digits_zero (Pos.to_uint p) 0) as Hscan.
  rewrite Hof in Hscan. cbn [Z.of_N N.add] in Hscan.
  unfold str_digits.
  destruct (Pos.to_uint p) eqn:Hd; [congruence| | | | | | | | | |];
    unfold NilZero.string_of_uint, Py.parse_magnitude;
    cbn [NilEmpty.string_of_uint];
    match goal with
    | |- context [Py.digit_value ?c] =>
        let v := eval vm_compute in (Py.digit_value c) in
        change (Py.digit_value c) with v
    end;
    cbv iota beta;
    cbn [NilEmpty.string_of_uint] in Hscan; rewrite Hscan; reflexivity.
Qed.

Lemma lstrip_to_uint (p : positive) :
  exists c rest,
    NilZero.string_of_uint (Pos.to_uint p) = String c rest
    /\ Py.is_space c = false /\ c <> "+"%char /\ c <> "-"%char.
Proof.
  pose proof (Unsigned.to_uint_nonnil p) as Hnn.
  destruct (Pos.to_uint p); [congruence| | | | | | | | | |];
    cbn [NilZero.string_of_uint NilEmpty.string_of_uint];
    eexists; eexists; (split; [reflexivity|]);
    (split; [reflexivity|]); split; discriminate.
Qed.

Lemma is_ascii_string_of_uint (d : Decimal.uint) :
  Py.is_ascii (NilEmpty.string_of_uint d) = true.
Proof.
  induction d; cbn [NilEmpty.string_of_uint Py.is_ascii];
    [reflexivity| | | | | | | | | |]; rewrite IHd; reflexivity.
Qed.

Lemma is_ascii_str (n : Z) : Py.is_ascii (Py.str n) = true.
Proof.
  unfold Py.str. destruct n as [|p|p]; [reflexivity| |];
    cbn [Z.to_int NilZero.string_of_int].
  - unfold NilZero.string_of_uint.
    destruct (Pos.to_uint p) eqn:Hd; [reflexivity| | | | | | | | | |];
      rewrite <- Hd; apply is_ascii_string_of_uint.
  - cbn [Py.is_ascii].
    change (N_of_ascii "-" <? 128)%N with true. cbn [andb].
    unfold NilZero.string_of_uint.
    destruct (Pos.to_uint p) eqn:Hd; [reflexivity| | | | | | | | | |];
      rewrite <- Hd; apply is_ascii_string_of_uint.
Qed.

(** Parsing the decimal text of an integer gives the integer back,
    unless the text has more digits than the interpreter takes. *)
Lemma int_str (py : Py.interpreter) (n : Z) :
  Py.int py (Py.str n)
  = if Py.over_limit py (str_digits n) then Raise ValueError else Ok n.
Proof.
  unfold Py.int. rewrite is_ascii_str. unfold Py.parse_ascii, Py.str.
  destruct n as [|p|p].
  - cbn. unfold Py.over_limit. reflexivity.
  - cbn [Z.to_int NilZero.string_of_int].
    pose proof (parse_magnitude_to_uint p) as Hp.
    destruct (lstrip_to_uint p) as [c [rest [Hs [Hsp [Hplus Hminus]]]]].
    rewrite Hs in *. cbn [Py.lstrip]. rewrite Hsp.
    destruct c as [[] [] [] [] [] [] [] []]; try congruence;
      rewrite Hp; destruct (Py.over_limit py _); reflexivity.
  - cbn [Z.to_int NilZero.string_of_int].
    cbn [Py.lstrip].
    change (Py.is_space "-") with false. cbv iota.
    rewrite parse_magnitude_to_uint. cbn [option_map fst snd].
    change (str_digits (Z.neg p)) with (str_digits (Z.pos p)).
    destruct (Py.over_limit py _); reflexivity.
Qed.

(** The decimal text of a number up to 9999 has at most four digits. *)
Lemma str_digits_small (n : Z) :
  - 9999 <= n <= 9999 -> (str_digits n <= 4)%N.
Proof.
  assert (Hall : forallb
            (fun k => (str_digits (Z.of_nat k) <=? 4)%N)
            (seq 0 (Z.to_nat 10000))
          = true) by (vm_compute; reflexivity).
  rewrite forallb_forall in Hall.
  assert (Hpos : forall k, 0 <= k <= 9999 -> (str_digits k <= 4)%N).
  { intros k Hk. specialize (Hall (Z.to_nat k)).
    rewrite Z2Nat.id in Hall by lia. apply N.leb_le, Hall.
    apply in_seq. lia. }
  intros Hn. destruct n as [|p|p]; [apply Hpos; lia|apply Hpos; lia|].
  change (str_digits (Z.neg p)) with (str_digits (Z.pos p)).
  apply Hpos. lia.
Qed.

Lemma over_limit_small (py : Py.interpreter) (digits : N) :
  (digits <= 640)%N -> Py.over_limit py digits = false.
Proof.
  intros H. unfold Py.over_limit.
  replace (640 <? digits)%N with false by (symmetry; apply N.ltb_ge; lia).
  reflexivity.
Qed.

(** [int] on lines a user can type, in CPython 3.11: the separators
    U+001C to U+001F are not skipped, white space and decimal digits
    above ASCII are read, single underscores between digits are passed
    over, and a text of more than 4300 digits is refused. *)
Lemma int_of_typed_lines :
  let int := Py.int Sample.cpython in
  int Sample.separator_2023 = Raise ValueError
  /\ int Sample.year_2023_separator = Raise ValueError
  /\ int Sample.nbsp_2023 = Ok 2023
  /\ int Sample.fullwidth_2023 = Ok 2023
  /\ int (Sample.bytes [9; 32] ++ "+2_023" ++ Sample.bytes [13; 10])%string
     = Ok 2023
  /\ int "2__023"%string = Raise ValueError
  /\ int "_2023"%string = Raise ValueError
  /\ int "-"%string = Raise ValueError
  /\ int "20.0"%string = Raise ValueError
  /\ int (Sample.bytes [50; 48; 50; 51; 195])%string = Raise ValueError
  /\ int (Sample.padded_2023 4296) = Ok 2023
  /\ int (Sample.padded_2023 4297) = Raise ValueError.
Proof. vm_compute. repeat split. Qed.

(** ** The input resolver *)

Lemma int_outcome (py : Py.interpreter) (text : string) :
  (exists n, Py.int py text = Ok n) \/ Py.int py text = Raise ValueError.
Proof.
  unfold Py.int.
  destruct (Py.parse_ascii py _); eauto.
Qed.

Lemma parse_in_range_outcome (py : Py.interpreter) (text : string)
  (lo hi : Z) :
  (rejected py text lo hi /\ parse_in_range py text lo hi = Raise ValueError)
  \/ (exists n, Py.int py text = Ok n /\ lo <= n <= hi
                /\ parse_in_range py text lo hi = Ok n).
Proof.
  unfold parse_in_range, rejected.
  destruct (int_outcome py text) as [[n Hn]|Hn]; rewrite Hn; cbn [rbind].
  - destruct ((n <? lo) || (n >? hi)) eqn:Hr.
    + left. split; [|reflexivity]. right. exists n. split; [reflexivity|].
      apply orb_true_iff in Hr. lia.
    + right. exists n. apply orb_false_iff in Hr. repeat split; lia.
  - left. split; [left|]; reflexivity.
Qed.

Lemma rejected_iff (py : Py.interpreter) (text : string) (lo hi : Z) :
  rejected py text lo hi <-> parse_in_range py text lo hi = Raise ValueError.
Proof.
  split.
  - intros Hrej.
    destruct (parse_in_range_outcome py text lo hi)
      as [[_ H]|[n [Hn [Hr _]]]];
      [assumption|].
    destruct Hrej as [Hrej|[n' [Hn' Hr']]]; rewrite Hn in *;
      [discriminate|]. injection Hn' as <-. lia.
  - intros H.
    destruct (parse_in_range_outcome py text lo hi)
      as [[Hrej _]|[n [_ [_ Hok]]]];
      [assumption|congruence].
Qed.

(** The resolver, case by case. *)
Lemma get_month_year_cases (en : env) (st : state) :
  get_month_year en st =
  match stdin st with
  | [] => (Raise EOFError, mkState [] (log st ++ [Prompt (year_prompt en)]))
  | l1 :: rest1 =>
      match parse_in_range (python en) (year_text en l1) 1900 2100 with
      | Raise _ =>
          (Ok (None, None),
           mkState rest1 (log st ++ [Prompt (year_prompt en);
                                     Print invalid_year_message]))
      | Ok y =>
          match rest1 with
          | [] =>
              (Raise EOFError,
               mkState [] (log st ++ [Prompt (year_prompt en);
                                      Prompt (month_prompt en)]))
          | l2 :: rest2 =>
              match parse_in_range (python en) (month_text en l2) 1 12 with
              | Raise _ =>
                  (Ok (None, None),
                   mkState rest2 (log st ++ [Prompt (year_prompt en);
                                             Prompt (month_prompt en);
                                             Print invalid_month_message]))
              | Ok m =>
                  (Ok (Some y, Some m),
                   mkState rest2 (log st ++ [Prompt (year_prompt en);
                                             Prompt (month_prompt en)]))
              end
          end
      end
  end.
Proof.
  unfold get_month_year, bind, ask, input, print, emit, ret, raise.
  fold (year_prompt en) (month_prompt en).
  destruct (stdin st) as [|l1 rest1]; [reflexivity|].
  fold (year_text en l1).
  destruct (parse_in_range_outcome (python en) (year_text en l1) 1900 2100)
    as [[_ Hy]|[y [_ [_ Hy]]]]; rewrite Hy.
  - cbn [stdin log]. now rewrite <- app_assoc.
  - cbn [stdin log]. destruct rest1 as [|l2 rest2].
    + now rewrite <- app_assoc.
    + fold (month_text en l2).
      destruct (parse_in_range_outcome (python en) (month_text en l2) 1 12)
        as [[_ Hm]|[m [_ [_ Hm]]]]; rewrite Hm; cbn [stdin log];
        now rewrite <- !app_assoc.
Qed.

(** ** The driver *)

Lemma main_invalid (en : env) (st st' : state) :
  get_month_year en st = (Ok (None, None), st') ->
  main en st
  = (Ok tt, mkState (stdin st') (log st' ++ [Print exit_message])).
Proof.
  intros H. unfold main, bind. rewrite H. reflexivity.
Qed.

Lemma get_month_year_accepted (en : env) (st st' : state) (y m : Z) :
  get_month_year en st = (Ok (Some y, Some m), st') ->
  valid_year y /\ valid_month m
  /\ log st' = log st ++ [Prompt (year_prompt en); Prompt (month_prompt en)].
Proof.
  rewrite get_month_year_cases.
  destruct (stdin st) as [|l1 rest1]; [discriminate|].
  destruct (parse_in_range_outcome (python en) (year_text en l1) 1900 2100)
    as [[_ Hy]|[y' [_ [Hry Hy]]]]; rewrite Hy; [discriminate|].
  destruct rest1 as [|l2 rest2]; [discriminate|].
  destruct (parse_in_range_outcome (python en) (month_text en l2) 1 12)
    as [[_ Hm]|[m' [_ [Hrm Hm]]]]; rewrite Hm; [discriminate|].
  intros H. injection H as <- <- <-. cbn [log]. auto.
Qed.

Lemma dt_date_first (y m : Z) :
  valid_year y -> valid_month m -> Py.dt_date y m 1 = Ok (y, m, 1).
Proof.
  unfold valid_year, valid_month, Py.dt_date. intros Hy Hm.
  pose proof (days_in_month_pos y m).
  rewrite (proj2 (fits_c_int_iff y)), (proj2 (fits_c_int_iff m)),
    (proj2 (fits_c_int_iff 1)) by lia.
  cbn [andb].
  replace (1 <=? y) with true by lia. replace (y <=? 9999) with true by lia.
  replace (1 <=? m) with true by lia. replace (m <=? 12) with true by lia.
  replace (1 <=? 1) with true by lia.
  replace (1 <=? days_in_month y m) with true by lia.
  reflexivity.
Qed.

Lemma strftime_b_lower (y m d : Z) :
  valid_month m -> Py.lower (Py.strftime_b (y, m, d)) = month_abbrev m.
Proof.
  unfold valid_month. intros Hm.
  assert (H : m = 1 \/ m = 2 \/ m = 3 \/ m = 4 \/ m = 5 \/ m = 6 \/ m = 7
              \/ m = 8 \/ m = 9 \/ m = 10 \/ m = 11 \/ m = 12) by lia.
  repeat (destruct H as [->|H]; [reflexivity|]). subst. reflexivity.
Qed.

Ltac unfold_io :=
  unfold get_dataset, to_raster;
  unfold bind, ask, lift, print, emit, raise, ret;
  cbv beta iota; cbn [stdin log].

Ltac on X := destruct X eqn:?; cbv beta iota; cbn [stdin log].




(** A store that cannot be opened aborts the run at that call. *)
Lemma main_unavailable (en : env) (st st' : state) (y m : Z) :
  get_month_year en st = (Ok (Some y, Some m), st') ->
  (forall s, SNODAS_SAS en = Some s ->
     open_zarr en (endpoint ++ s)%string "snodas-v1" "snodas.zarr" = None ->
     main en st
     = (Raise DataSourceUnavailable,
        mkState (stdin st')
                (log st' ++ [Fetch (endpoint ++ s)%string
                                   "snodas-v1" "snodas.zarr"])))
  /\ (unavailable en "copernicus" "copernicus.zarr" (COPERNICUS_SAS en) ->
      exists e evs,
        main en st = (Raise e, mkState (stdin st') (log st' ++ evs))
        /\ Forall (fun ev => ~ is_written ev) evs).
Proof.
  intros H. split.
  - intros s Hs Hopen. unfold main, bind at 1. rewrite H.
    destruct st' as [inp lg]. unfold_io. rewrite Hs.
    fold endpoint. rewrite Hopen. reflexivity.
  - intros [s [Hs Hopen]]. unfold main, bind at 1. rewrite H. clear H.
    destruct st' as [inp lg]. unfold_io. rewrite Hs.
    fold endpoint. rewrite Hopen.
    on (SNODAS_SAS en).
    2:{ exists TypeError, []. split; [now rewrite List.app_nil_r|constructor]. }
    on (open_zarr en (endpoint ++ s0)%string "snodas-v1" "snodas.zarr").
    2:{ eexists; eexists. split; [reflexivity|].
        repeat constructor; cbn; auto. }
    on (getitem d "1034").
    2:{ rewrite <- List.app_assoc. eexists; eexists. split; [reflexivity|].
        repeat constructor; cbn; auto. }
    rewrite <- !List.app_assoc. eexists; eexists. split; [reflexivity|].
    repeat constructor; cbn; auto.
Qed.

Lemma or_str (n : Z) (d : string) : Py.or_ (Py.str n) d = Py.str n.
Proof.
  unfold Py.str. destruct n as [|p|p]; [reflexivity| |reflexivity].
  cbn [Z.to_int NilZero.string_of_int].
  destruct (lstrip_to_uint p) as [c [rest [Hs _]]]. now rewrite Hs.
Qed.

Lemma parse_in_range_str (py : Py.interpreter) (n lo hi : Z) :
  - 9999 <= lo -> hi <= 9999 ->
  parse_in_range py (Py.str n) lo hi
  = if in_range n lo hi then Ok n else Raise ValueError.
Proof.
  intros Hlo Hhi. unfold parse_in_range, in_range. rewrite int_str.
  destruct (Py.over_limit py (str_digits n)) eqn:Hover; cbn [rbind].
  - destruct (Z.leb_spec lo n), (Z.leb_spec n hi); try reflexivity.
    rewrite over_limit_small in Hover; [discriminate|].
    pose proof (str_digits_small n). lia.
  - destruct (Z.ltb_spec n lo), (Z.gtb_spec n hi),
      (Z.leb_spec lo n), (Z.leb_spec n hi); try lia; reflexivity.
Qed.

(** ** The claims on the input resolver and the driver *)

(** C6: when the text parsed for the year, or the text parsed for the
    month, does not parse as an integer or parses outside its range,
    [get_month_year] returns [(None, None)], and [main] prints its exit
    message and returns: its whole log is prompts and messages, with no
    store contacted and no file written. *)
Theorem invalid_input_aborts_before_any_fetch (en : env) (l1 : string)
  (rest : list string) :
  rejected (python en) (year_text en l1) 1900 2100
  \/ (exists l2 rest', rest = l2 :: rest'
                       /\ rejected (python en) (month_text en l2) 1 12) ->
  exists st,
    run get_month_year en (l1 :: rest) = (Ok (None, None), st)
    /\ run main en (l1 :: rest)
       = (Ok tt, mkState (stdin st) (log st ++ [Print exit_message]))
    /\ Forall is_console (log st ++ [Print exit_message]).
Proof.
  intros Hrej.
  assert (Hres : exists st,
             run get_month_year en (l1 :: rest) = (Ok (None, None), st)
             /\ Forall is_console (log st)).
  { unfold run. rewrite get_month_year_cases. cbn [stdin log List.app].
    destruct (parse_in_range_outcome (python en) (year_text en l1) 1900 2100)
      as [[_ Hy]|[y [Hint [Hry Hy]]]]; rewrite Hy.
    - eexists. split; [reflexivity|]. repeat constructor.
    - destruct Hrej as [Hrej|[l2 [rest' [-> Hrej]]]].
      + apply rejected_iff in Hrej. congruence.
      + apply rejected_iff in Hrej. rewrite Hrej.
        eexists. split; [reflexivity|]. repeat constructor. }
  destruct Hres as [st [Hres Hlog]]. exists st.
  split; [assumption|]. split.
  - unfold run in *. now apply main_invalid.
  - apply Forall_app. split; [assumption|]. repeat constructor.
Qed.

Lemma invalid_input_aborts_before_any_fetch_witness :
  exists st,
    run get_month_year Sample.healthy [Sample.separator_2023; "3"%string]
    = (Ok (None, None), st)
    /\ run main Sample.healthy [Sample.separator_2023; "3"%string]
       = (Ok tt, mkState (stdin st) (log st ++ [Print exit_message]))
    /\ Forall is_console (log st ++ [Print exit_message]).
Proof.
  apply (invalid_input_aborts_before_any_fetch Sample.healthy
           Sample.separator_2023 ["3"%string]).
  left. left. reflexivity.
Defined.

(** C7, as the code has it: [main] handles no exception, so a store
    that cannot be opened ends the whole run with the exception and no
    raster written for either family; when it is the regional store,
    the run ends at that call, before the global store is contacted. *)
Theorem fetch_failure_aborts_the_run (en : env) (lines : list string)
  (y m : Z) (st : state) :
  run get_month_year en lines = (Ok (Some y, Some m), st) ->
  unavailable en "snodas-v1" "snodas.zarr" (SNODAS_SAS en)
  \/ unavailable en "copernicus" "copernicus.zarr" (COPERNICUS_SAS en) ->
  exists e st',
    run main en lines = (Raise e, st')
    /\ Forall (fun ev => ~ is_written ev) (log st')
    /\ (forall s, SNODAS_SAS en = Some s ->
          open_zarr en (endpoint ++ s)%string "snodas-v1" "snodas.zarr"
          = None ->
          e = DataSourceUnavailable
          /\ log st' = log st ++ [Fetch (endpoint ++ s)%string
                                        "snodas-v1" "snodas.zarr"]).
Proof.
  unfold run. intros Hres Hdown.
  destruct (get_month_year_accepted _ _ _ _ _ Hres) as [_ [_ Hlog]].
  cbn [log List.app] in Hlog.
  assert (Hquiet : Forall (fun ev => ~ is_written ev) (log st)).
  { rewrite Hlog. repeat constructor; cbn; auto. }
  destruct (main_unavailable _ _ _ _ _ Hres) as [Hreg Hglob].
  destruct (SNODAS_SAS en) as [s|] eqn:Hsas.
  - destruct (open_zarr en (endpoint ++ s)%string "snodas-v1" "snodas.zarr")
      as [ds|] eqn:Hopen.
    + destruct Hdown as [[s' [Hs' Hopen']]|Hdown].
      * injection Hs' as <-. congruence.
      * destruct (Hglob Hdown) as [e [evs [Hrun Hevs]]].
        exists e. eexists. split; [exact Hrun|]. cbn [log]. split.
        -- apply Forall_app. now split.
        -- intros s' Hs' Hopen'. injection Hs' as <-. congruence.
    + rewrite (Hreg s eq_refl Hopen). eexists. eexists.
      split; [reflexivity|]. cbn [log]. split.
      * apply Forall_app. split; [assumption|]. repeat constructor. cbn. auto.
      * intros s' Hs' _. injection Hs' as <-. auto.
  - destruct Hdown as [[s' [Hs' _]]|Hdown]; [discriminate|].
    destruct (Hglob Hdown) as [e [evs [Hrun Hevs]]].
    exists e. eexists. split; [exact Hrun|]. cbn [log]. split.
    + apply Forall_app. now split.
    + intros s' Hs'. discriminate.
Qed.

Lemma fetch_failure_aborts_the_run_witness :
  exists e st',
    run main Sample.global_down ["2023"; "3"]%string = (Raise e, st')
    /\ Forall (fun ev => ~ is_written ev) (log st')
    /\ (forall s, SNODAS_SAS Sample.global_down = Some s ->
          open_zarr Sample.global_down (endpoint ++ s)%string
                    "snodas-v1" "snodas.zarr" = None ->
          e = DataSourceUnavailable
          /\ log st'
             = [Prompt (year_prompt Sample.global_down);
                Prompt (month_prompt Sample.global_down)]
                 ++ [Fetch (endpoint ++ s)%string "snodas-v1" "snodas.zarr"]).
Proof.
  apply (fetch_failure_aborts_the_run Sample.global_down
           ["2023"; "3"]%string 2023 3
           (mkState [] [Prompt (year_prompt Sample.global_down);
                        Prompt (month_prompt Sample.global_down)])).
  - reflexivity.
  - right. exists "sig=g"%string. split; reflexivity.
Defined.

(** C7 fails on the code: with the regional store down and the global
    store in order, the run ends in the exception of the regional fetch;
    the global store is never contacted and the global raster, which the
    same global store yields when both stores are up, is not written. *)
Lemma regional_outage_stops_the_global_branch :
  unavailable Sample.regional_down "snodas-v1" "snodas.zarr"
              (SNODAS_SAS Sample.regional_down)
  /\ open_zarr Sample.regional_down (endpoint ++ "sig=g")%string
               "copernicus" "copernicus.zarr"
     = open_zarr Sample.healthy (endpoint ++ "sig=g")%string
                 "copernicus" "copernicus.zarr"
  /\ (exists r,
        In (Written "copernicus_prcnt_of_norm_mar_2023.tif"%string r)
           (log (snd (run main Sample.healthy ["2023"; "3"]%string))))
  /\ run main Sample.regional_down ["2023"; "3"]%string
     = (Raise DataSourceUnavailable,
        mkState []
          [Prompt "Enter year [default: 2024]: ";
           Prompt "Enter month (1-12) [default: 11]: ";
           Fetch "https://climatedataprod.blob.core.windows.net?sig=r"
                 "snodas-v1" "snodas.zarr"]%string).
Proof.
  split; [exists "sig=r"%string; split; reflexivity|].
  split; [reflexivity|].
  split; [|vm_compute; reflexivity].
  eexists. vm_compute. do 9 right. left. reflexivity.
Qed.




(** C10: on two lines of input the resolver returns, and what it returns
    is [(None, None)] or a pair of a year in 1900..2100 and a month in
    1..12; when the year text is rejected the month line is left unread:
    it is still the head of the input, and the log holds the year prompt
    and the year message only. *)
Theorem resolver_all_or_nothing (en : env) (l1 l2 : string)
  (rest : list string) :
  exists r st,
    run get_month_year en (l1 :: l2 :: rest) = (Ok r, st)
    /\ (r = (None, None)
        \/ exists y m, r = (Some y, Some m) /\ valid_year y /\ valid_month m)
    /\ (rejected (python en) (year_text en l1) 1900 2100 ->
        r = (None, None)
        /\ stdin st = l2 :: rest
        /\ log st = [Prompt (year_prompt en); Print invalid_year_message]).
Proof.
  unfold run. rewrite get_month_year_cases. cbn [stdin log List.app].
  destruct (parse_in_range_outcome (python en) (year_text en l1) 1900 2100)
    as [[_ Hy]|[y [_ [Hry Hy]]]]; rewrite Hy.
  - eexists. eexists. split; [reflexivity|]. split; [now left|].
    intros _. repeat split.
  - destruct (parse_in_range_outcome (python en) (month_text en l2) 1 12)
      as [[_ Hm]|[m [_ [Hrm Hm]]]]; rewrite Hm;
      (eexists; eexists; split; [reflexivity|]); split.
    + now left.
    + intros Hrej. apply rejected_iff in Hrej. congruence.
    + right. exists y, m. repeat split; lia.
    + intros Hrej. apply rejected_iff in Hrej. congruence.
Qed.

Lemma resolver_all_or_nothing_witness :
  exists r st,
    run get_month_year Sample.healthy
        [Sample.year_2023_separator; "3"%string] = (Ok r, st)
    /\ r = (None, None)
    /\ stdin st = ["3"%string]
    /\ log st = [Prompt (year_prompt Sample.healthy);
                 Print invalid_year_message].
Proof.
  destruct (resolver_all_or_nothing Sample.healthy
              Sample.year_2023_separator "3" [])
    as [r [st [Hrun [_ Hrej]]]].
  exists r, st. split; [exact Hrun|].
  apply Hrej. left. reflexivity.
Defined.

(* ================================================================== *)
(** * Further properties *)

(** ** What the normals engine selects *)

Lemma is_candidate_produced (y m : Z) (snodas : bool) (t : datetime) :
  existsb (datetime_eqb t) (produced_candidates y m snodas)
  = is_candidate y m snodas t.
Proof.
  apply eq_true_iff_eq. rewrite existsb_datetime_In.
  unfold is_candidate, produced_candidates, first_candidate_year.
  rewrite !andb_true_iff, datetime_eqb_eq, !Z.leb_le, in_map_iff. split.
  - intros [cy [<- Hcy]]. apply in_zrange in Hcy. cbn [anchor year].
    repeat split; try reflexivity; lia.
  - intros [[Heq Hlo] Hhi]. exists (year t). split; [now symmetry|].
    apply in_zrange. lia.
Qed.

Lemma filter_twice {A} (p q : A -> bool) (xs : list A) :
  (forall x, q x = true -> p x = true) ->
  filter q (filter p xs) = filter q xs.
Proof.
  intros Himp. induction xs as [|x xs IH]; [reflexivity|].
  cbn [filter]. destruct (p x) eqn:Hp.
  - cbn [filter]. now rewrite IH.
  - destruct (q x) eqn:Hq; [|assumption].
    apply Himp in Hq. congruence.
Qed.

Lemma entries_of_selection (da : DataArray) (y m : Z) (snodas : bool) :
  valid_year y -> valid_month m ->
  month_firsts_da da y m snodas
  = Ok (keep_times (is_candidate y m snodas) da).
Proof.
  intros Hy Hm. rewrite month_firsts_da_produced by assumption.
  unfold keep_times. do 2 f_equal. apply filter_ext. intros e.
  apply is_candidate_produced.
Qed.

(** X1: on validated input the timesteps [get_normals] averages are
    exactly the timesteps of the series, in series order, stamped at a
    January anchor of the convention in a year from the first candidate
    year through [y - 1]. *)
Theorem normals_average_the_january_anchors (da : DataArray) (y m : Z)
  (snodas : bool) :
  valid_year y -> valid_month m ->
  month_firsts_da da y m snodas
  = Ok (keep_times (is_candidate y m snodas) da)
  /\ get_normals da y m snodas
     = Ok (mean_time (keep_times (is_candidate y m snodas) da))
  /\ forall t,
       is_candidate y m snodas t = true <->
       exists cy, t = mkdt cy 1 1 (anchor_hour snodas) 0 0 0
                  /\ first_candidate_year m snodas <= cy <= y - 1.
Proof.
  intros Hy Hm. split; [now apply entries_of_selection|]. split.
  - unfold get_normals. now rewrite entries_of_selection.
  - intros t. unfold is_candidate.
    rewrite !andb_true_iff, datetime_eqb_eq, !Z.leb_le. split.
    + intros [[Heq Hlo] Hhi]. exists (year t). split; [exact Heq|lia].
    + intros [cy [-> Hcy]]. cbn [year anchor]. repeat split; lia.
Qed.

Lemma normals_average_the_january_anchors_witness :
  get_normals Sample.regional 2023 3 true
  = Ok (mean_time (keep_times (is_candidate 2023 3 true) Sample.regional)).
Proof.
  apply (normals_average_the_january_anchors Sample.regional 2023 3 true);
    unfold valid_year, valid_month; lia.
Defined.

(** X2: the normals do not depend on any timestep of the target year or
    of a later year: cutting the series down to the timesteps of earlier
    years leaves the result of [get_normals] unchanged. *)
Theorem normals_ignore_target_year_and_later (da : DataArray) (y m : Z)
  (snodas : bool) :
  valid_year y -> valid_month m ->
  get_normals (keep_times (fun t => year t <? y) da) y m snodas
  = get_normals da y m snodas.
Proof.
  intros Hy Hm. unfold get_normals.
  rewrite !entries_of_selection by assumption. cbn [rbind].
  do 2 f_equal. unfold keep_times. cbn [shape entries]. f_equal.
  apply filter_twice. intros e He. unfold is_candidate in He.
  apply andb_true_iff in He. destruct He as [_ He].
  apply Z.leb_le in He. apply Z.ltb_lt. lia.
Qed.

Lemma normals_ignore_target_year_and_later_witness :
  get_normals (keep_times (fun t => year t <? 2023) Sample.regional)
              2023 3 true
  = get_normals Sample.regional 2023 3 true.
Proof.
  apply (normals_ignore_target_year_and_later Sample.regional 2023 3 true);
    unfold valid_year, valid_month; lia.
Defined.

Lemma filter_nothing {A} (p : A -> bool) (xs : list A) :
  (forall x, In x xs -> p x = false) -> filter p xs = [].
Proof.
  induction xs as [|x xs IH]; intros H; [reflexivity|].
  cbn [filter]. rewrite (H x) by now left.
  apply IH. intros x' Hx'. apply H. now right.
Qed.

(** X3: matching is exact on the hour: a series without any timestep at
    the anchor hour of the convention (a regional series read with the
    global convention, say) gives all-NaN normals of the shape of the
    series, without an error. *)
Theorem normals_of_another_hour_are_undefined (da : DataArray) (y m : Z)
  (snodas : bool) :
  valid_year y -> valid_month m ->
  (forall t, In t (time da) -> hour t <> anchor_hour snodas) ->
  get_normals da y m snodas = Ok (nan_grid (shape da)).
Proof.
  intros Hy Hm Hhour. unfold get_normals.
  rewrite entries_of_selection by assumption. cbn [rbind].
  unfold keep_times. rewrite filter_nothing; [reflexivity|].
  intros e He. unfold is_candidate.
  destruct (datetime_eqb (fst e) (anchor (year (fst e)) 1 snodas)) eqn:Heq;
    [|reflexivity].
  apply datetime_eqb_eq in Heq. exfalso.
  apply (Hhour (fst e)); [now apply in_map|]. rewrite Heq. reflexivity.
Qed.

Lemma normals_of_another_hour_are_undefined_witness :
  get_normals Sample.regional 2023 1 false
  = Ok (nan_grid (shape Sample.regional)).
Proof.
  apply (normals_of_another_hour_are_undefined Sample.regional 2023 1 false).
  - unfold valid_year; lia.
  - unfold valid_month; lia.
  - cbn. intros t [<-|[<-|[<-|[]]]]; discriminate.
Defined.

Lemma dt_datetime_bad_month (y m h : Z) :
  m < 1 \/ 12 < m -> fits_c_int h = true ->
  dt_datetime y m 1 h
  = Raise (if fits_c_int y && fits_c_int m then ValueError
           else OverflowError).
Proof.
  intros Hm Hh. unfold dt_datetime. rewrite Hh.
  change (fits_c_int 1) with true. rewrite !andb_true_r.
  destruct (fits_c_int y && fits_c_int m); [|reflexivity].
  destruct (1 <=? y); [|reflexivity]. destruct (y <=? 9999); [|reflexivity].
  cbn [andb].
  destruct (Z.leb_spec 1 m); [|reflexivity].
  destruct (Z.leb_spec m 12); [lia|reflexivity].
Qed.

(** X4: a month outside 1..12 makes both [get_normals] and
    [get_percent_of_normal] raise, whatever the series and the
    convention, at the first timestamp they build: [ValueError] when the
    arguments of that timestamp are C integers (the month, and for
    [get_percent_of_normal] the year, which it passes first), and
    [OverflowError] when one of them is not. *)
Theorem month_out_of_range_raises (da : DataArray) (normals : grid)
  (y m : Z) (snodas : bool) :
  m < 1 \/ 12 < m ->
  get_normals da y m snodas
  = Raise (if fits_c_int m then ValueError else OverflowError)
  /\ get_percent_of_normal da normals y m snodas
     = Raise (if fits_c_int y && fits_c_int m then ValueError
              else OverflowError).
Proof.
  intros Hm. split.
  - unfold get_normals, month_firsts_da, month_firsts.
    destruct snodas; now rewrite dt_datetime_bad_month.
  - unfold get_percent_of_normal.
    destruct snodas; now rewrite dt_datetime_bad_month.
Qed.

Lemma month_out_of_range_raises_witness :
  (get_normals Sample.regional 2023 13 true = Raise ValueError
   /\ get_percent_of_normal Sample.regional (Sample.px 1) 2023 13 true
      = Raise ValueError)
  /\ (get_normals Sample.regional 2023 2147483648 true
      = Raise OverflowError
      /\ get_percent_of_normal Sample.regional (Sample.px 1)
           2023 2147483648 true
         = Raise OverflowError).
Proof.
  split.
  - apply (month_out_of_range_raises Sample.regional (Sample.px 1)
             2023 13 true).
    right. lia.
  - apply (month_out_of_range_raises Sample.regional (Sample.px 1)
             2023 2147483648 true).
    right. lia.
Defined.

(** ** Shapes *)

Lemma length_row_zip (f : F64.cell -> F64.cell -> F64.cell)
  (h : F64.cell -> F64.cell) (r r' : list F64.cell) (n : nat) :
  length r = n -> length r' = n -> length (map h (zip_with f r r')) = n.
Proof.
  intros Hr Hr'. rewrite length_map, length_zip_with, Hr, Hr'.
  apply Nat.min_id.
Qed.

Lemma has_shape_percent_grid (sh : shape_t) (g normals : grid) :
  has_shape sh g -> has_shape sh normals ->
  has_shape sh (percent_grid g normals).
Proof.
  destruct sh as [ny nx]. unfold has_shape, percent_grid, grid_map, grid_zip.
  cbn [fst snd]. intros [Hlen Hrows] [Hlen' Hrows']. split.
  - rewrite length_map, length_zip_with, Hlen, Hlen'. apply Nat.min_id.
  - clear Hlen Hlen'. revert normals Hrows'.
    induction Hrows as [|r g Hr Hrows IH]; intros normals Hrows';
      [constructor|].
    destruct Hrows' as [|r' normals Hr' Hrows']; [constructor|].
    cbn [zip_with map]. constructor.
    + now apply length_row_zip.
    + now apply IH.
Qed.

(** X6: when the target timestep and the normals have the spatial shape
    of the series, so has the percent-of-normal grid. *)
Theorem percent_of_normal_keeps_the_shape (da : DataArray)
  (normals g : grid) (y m : Z) (snodas : bool) :
  valid_year y -> valid_month m ->
  NoDup (time da) -> In (anchor y m snodas, g) (entries da) ->
  has_shape (shape da) g -> has_shape (shape da) normals ->
  exists percent,
    get_percent_of_normal da normals y m snodas = Ok (One percent)
    /\ has_shape (shape da) percent.
Proof.
  intros Hy Hm Hnd Hin Hg Hn. eexists. split.
  - rewrite get_percent_of_normal_anchor by assumption.
    rewrite (sel_label_unique da _ g) by assumption. reflexivity.
  - now apply has_shape_percent_grid.
Qed.

Lemma percent_of_normal_keeps_the_shape_witness :
  exists percent,
    get_percent_of_normal Sample.regional (Sample.px 30) 2023 3 true
    = Ok (One percent)
    /\ has_shape (shape Sample.regional) percent.
Proof.
  apply (percent_of_normal_keeps_the_shape Sample.regional (Sample.px 30)
           (Sample.px 20) 2023 3 true).
  - unfold valid_year; lia.
  - unfold valid_month; lia.
  - distinct_times.
  - cbn. auto.
  - split; [reflexivity|]. repeat constructor.
  - split; [reflexivity|]. repeat constructor.
Defined.

(** ** Cells without a defined percentage *)

Lemma percent_cell_undefined (x n : F64.cell) :
  (cell_is_zero n = true ->
   F64.is_nan (F64.mul (F64.div x n) F64.hundred) = true
   \/ cell_is_infinite (F64.mul (F64.div x n) F64.hundred) = true)
  /\ (F64.is_nan n = true \/ F64.is_nan x = true ->
      F64.is_nan (F64.mul (F64.div x n) F64.hundred) = true).
Proof.
  split.
  - destruct n as [sn| | |]; try discriminate. intros _.
    destruct x as [sx|sx| |sx mx ex]; cbn; auto.
  - intros [Hn|Hx].
    + destruct n; try discriminate. destruct x; reflexivity.
    + destruct x; try discriminate. reflexivity.
Qed.

(** X7: the division is not guarded: in a cell where the normal is zero
    the percentage is NaN or an infinity, never a finite number, and in a
    cell where the normal or the target is NaN the percentage is NaN. *)
Theorem percent_is_undefined_over_zero_or_nan (g normals : grid)
  (i j : nat) :
  (i < length g)%nat -> (i < length normals)%nat ->
  (j < length (row i g))%nat -> (j < length (row i normals))%nat ->
  (cell_is_zero (cell_at i j normals) = true ->
   F64.is_nan (cell_at i j (percent_grid g normals)) = true
   \/ cell_is_infinite (cell_at i j (percent_grid g normals)) = true)
  /\ (F64.is_nan (cell_at i j normals) = true
      \/ F64.is_nan (cell_at i j g) = true ->
      F64.is_nan (cell_at i j (percent_grid g normals)) = true).
Proof.
  intros Hi Hi' Hj Hj'. rewrite cell_at_percent_grid by assumption.
  apply percent_cell_undefined.
Qed.

Lemma percent_is_undefined_over_zero_or_nan_witness :
  F64.is_nan (cell_at 0 0 (percent_grid [[F64.zero]] [[F64.zero]])) = true
  \/ cell_is_infinite
       (cell_at 0 0 (percent_grid [[F64.zero]] [[F64.zero]])) = true.
Proof.
  apply (percent_is_undefined_over_zero_or_nan [[F64.zero]] [[F64.zero]]
           0%nat 0%nat); cbn; auto.
Defined.

(** X8: a cell without snow at the target timestep over a finite normal
    other than zero is zero percent. *)
Theorem no_snow_over_a_normal_is_zero_percent (g normals : grid)
  (i j : nat) :
  (i < length g)%nat -> (i < length normals)%nat ->
  (j < length (row i g))%nat -> (j < length (row i normals))%nat ->
  cell_is_zero (cell_at i j g) = true ->
  F64.is_finite_nonzero (cell_at i j normals) = true ->
  cell_is_zero (cell_at i j (percent_grid g normals)) = true.
Proof.
  intros Hi Hi' Hj Hj' Hz Hf. rewrite cell_at_percent_grid by assumption.
  destruct (cell_at i j g); try discriminate.
  destruct (cell_at i j normals); try discriminate. reflexivity.
Qed.

Lemma no_snow_over_a_normal_is_zero_percent_witness :
  cell_is_zero (cell_at 0 0 (percent_grid [[F64.zero]] (Sample.px 30)))
  = true.
Proof.
  apply (no_snow_over_a_normal_is_zero_percent [[F64.zero]] (Sample.px 30)
           0%nat 0%nat); cbn; auto.
Defined.

(** ** Undefined normals through the ratio computer *)

Lemma percent_row_of_nan (r : list F64.cell) :
  forall a n, length r = n ->
    map (fun q => F64.mul q F64.hundred)
        (zip_with F64.div r (map (fun _ => F64.nan) (seq a n)))
    = map (fun _ => F64.nan) (seq a n).
Proof.
  induction r as [|x r IH]; intros a n Hn; subst n; [reflexivity|].
  cbn [length seq map zip_with]. f_equal.
  - destruct x; reflexivity.
  - now apply IH.
Qed.

Lemma percent_rows_of_nan (nx : nat) (nan_row : list F64.cell)
  (g : grid) :
  (forall r, length r = nx ->
     map (fun q => F64.mul q F64.hundred) (zip_with F64.div r nan_row)
     = nan_row) ->
  Forall (fun r => length r = nx) g ->
  forall a,
    map (map (fun q => F64.mul q F64.hundred))
        (zip_with (zip_with F64.div) g
                  (map (fun _ => nan_row) (seq a (length g))))
    = map (fun _ => nan_row) (seq a (length g)).
Proof.
  intros Hrow Hrows.
  induction Hrows as [|r g Hr Hrows IH]; intros a; [reflexivity|].
  cbn [length seq map zip_with]. f_equal.
  - now apply Hrow.
  - apply IH.
Qed.

Lemma percent_grid_of_nan (sh : shape_t) (g : grid) :
  has_shape sh g -> percent_grid g (nan_grid sh) = nan_grid sh.
Proof.
  destruct sh as [ny nx]. unfold has_shape. cbn [fst snd].
  intros [Hlen Hrows]. subst ny.
  unfold percent_grid, nan_grid, grid_tabulate, tabulate, grid_map, grid_zip.
  cbn [fst snd].
  apply (percent_rows_of_nan nx (map (fun _ => F64.nan) (seq 0 nx)) g);
    [|assumption].
  intros r Hr. now apply percent_row_of_nan.
Qed.

(** X9: undefined normals go through: when no timestep of the series is
    a candidate for the target (the target year is at most the earliest
    valid year, say) and the target timestep is there, the normals are
    all NaN and so is the whole percent-of-normal grid; neither function
    raises. *)
Theorem undefined_normals_give_undefined_percent (da : DataArray)
  (g : grid) (y m : Z) (snodas : bool) :
  valid_year y -> valid_month m ->
  (forall t, In t (time da) -> is_candidate y m snodas t = false) ->
  NoDup (time da) -> In (anchor y m snodas, g) (entries da) ->
  has_shape (shape da) g ->
  get_normals da y m snodas = Ok (nan_grid (shape da))
  /\ rbind (get_normals da y m snodas)
           (fun normals => get_percent_of_normal da normals y m snodas)
     = Ok (One (nan_grid (shape da))).
Proof.
  intros Hy Hm Hnone Hnd Hin Hg.
  assert (Hn : get_normals da y m snodas = Ok (nan_grid (shape da))).
  { unfold get_normals. rewrite entries_of_selection by assumption.
    cbn [rbind]. unfold keep_times. rewrite filter_nothing; [reflexivity|].
    intros e He. apply Hnone. now apply in_map. }
  split; [assumption|]. rewrite Hn. cbn [rbind].
  rewrite get_percent_of_normal_anchor by assumption.
  rewrite (sel_label_unique da _ g) by assumption. cbn [rbind selected_map].
  now rewrite percent_grid_of_nan.
Qed.

Lemma undefined_normals_give_undefined_percent_witness :
  rbind (get_normals Sample.from_2008 2008 1 true)
        (fun normals =>
           get_percent_of_normal Sample.from_2008 normals 2008 1 true)
  = Ok (One (nan_grid (shape Sample.from_2008))).
Proof.
  apply (undefined_normals_give_undefined_percent Sample.from_2008
           (Sample.px 7) 2008 1 true).
  - unfold valid_year; lia.
  - unfold valid_month; lia.
  - cbn. intros t [<-|[<-|[]]]; reflexivity.
  - distinct_times.
  - cbn. auto.
  - split; [reflexivity|]. repeat constructor.
Defined.

(** X10: the percent of normal depends on the series through the target
    timestep only: cutting the series down to the timesteps stamped at
    the target anchor leaves the result unchanged. *)
Theorem percent_of_normal_reads_the_target_only (da : DataArray)
  (normals : grid) (y m : Z) (snodas : bool) :
  valid_year y -> valid_month m ->
  get_percent_of_normal
    (keep_times (fun t => datetime_eqb t (anchor y m snodas)) da)
    normals y m snodas
  = get_percent_of_normal da normals y m snodas.
Proof.
  intros Hy Hm. rewrite !get_percent_of_normal_anchor by assumption.
  unfold sel_label, keep_times. cbn [entries].
  rewrite filter_twice by auto. reflexivity.
Qed.

Lemma percent_of_normal_reads_the_target_only_witness :
  get_percent_of_normal
    (keep_times (fun t => datetime_eqb t (anchor 2023 3 true))
                Sample.regional)
    (Sample.px 30) 2023 3 true
  = get_percent_of_normal Sample.regional (Sample.px 30) 2023 3 true.
Proof.
  apply (percent_of_normal_reads_the_target_only Sample.regional
           (Sample.px 30) 2023 3 true);
    unfold valid_year, valid_month; lia.
Defined.

(** ** The input resolver, further *)

(** X11: a pair the resolver returns is what was typed: it has read
    exactly two lines, the year is the integer the first text parses to
    and the month the integer the second parses to, both in range, and
    nothing but the two prompts has been shown. *)
Theorem resolver_returns_what_was_typed (en : env) (lines : list string)
  (y m : Z) (st : state) :
  run get_month_year en lines = (Ok (Some y, Some m), st) ->
  exists l1 l2,
    lines = l1 :: l2 :: stdin st
    /\ Py.int (python en) (year_text en l1) = Ok y
    /\ Py.int (python en) (month_text en l2) = Ok m
    /\ valid_year y /\ valid_month m
    /\ log st = [Prompt (year_prompt en); Prompt (month_prompt en)].
Proof.
  unfold run. rewrite get_month_year_cases. cbn [stdin log List.app].
  destruct lines as [|l1 [|l2 rest]].
  - discriminate.
  - destruct (parse_in_range (python en) (year_text en l1) 1900 2100);
      discriminate.
  - destruct (parse_in_range_outcome (python en) (year_text en l1) 1900 2100)
      as [[_ Hy]|[y' [Hiy [Hry Hy]]]]; rewrite Hy; [discriminate|].
    destruct (parse_in_range_outcome (python en) (month_text en l2) 1 12)
      as [[_ Hm]|[m' [Him [Hrm Hm]]]]; rewrite Hm; [discriminate|].
    intros H. injection H as <- <- <-. exists l1, l2. cbn [stdin log].
    repeat split; try assumption; lia.
Qed.

Lemma resolver_returns_what_was_typed_witness :
  exists l1 l2,
    [Sample.fullwidth_2023; "+3"; "left"]%string
    = l1 :: l2 :: ["left"%string]
    /\ Py.int (python Sample.healthy) (year_text Sample.healthy l1) = Ok 2023
    /\ Py.int (python Sample.healthy) (month_text Sample.healthy l2) = Ok 3
    /\ valid_year 2023 /\ valid_month 3
    /\ [Prompt (year_prompt Sample.healthy);
        Prompt (month_prompt Sample.healthy)]
       = [Prompt (year_prompt Sample.healthy);
          Prompt (month_prompt Sample.healthy)].
Proof.
  apply (resolver_returns_what_was_typed Sample.healthy
           [Sample.fullwidth_2023; "+3"; "left"]%string 2023 3
           (mkState ["left"%string]
                    [Prompt (year_prompt Sample.healthy);
                     Prompt (month_prompt Sample.healthy)])).
  reflexivity.
Defined.

(** X12: typing the decimal text of a year in 1900..2100 and of a month
    in 1..12 makes the resolver return exactly that year and month,
    whatever the current date, with the rest of the input left unread. *)
Theorem resolver_accepts_decimal_text (en : env) (y m : Z)
  (rest : list string) :
  valid_year y -> valid_month m ->
  run get_month_year en (Py.str y :: Py.str m :: rest)
  = (Ok (Some y, Some m),
     mkState rest [Prompt (year_prompt en); Prompt (month_prompt en)]).
Proof.
  unfold valid_year, valid_month. intros Hy Hm.
  unfold run. rewrite get_month_year_cases. cbn [stdin log List.app].
  unfold year_text, month_text. rewrite !or_str.
  rewrite (parse_in_range_str (python en) y 1900 2100),
    (parse_in_range_str (python en) m 1 12) by lia.
  unfold in_range.
  replace (1900 <=? y) with true by lia. replace (y <=? 2100) with true by lia.
  replace (1 <=? m) with true by lia. replace (m <=? 12) with true by lia.
  reflexivity.
Qed.

Lemma resolver_accepts_decimal_text_witness :
  run get_month_year Sample.healthy [Py.str 1999; Py.str 12]
  = (Ok (Some 1999, Some 12),
     mkState [] [Prompt (year_prompt Sample.healthy);
                 Prompt (month_prompt Sample.healthy)]).
Proof.
  apply (resolver_accepts_decimal_text Sample.healthy 1999 12 []);
    unfold valid_year, valid_month; lia.
Defined.

Lemma main_raises_with_the_resolver (en : env) (st st' : state) (e : exn) :
  get_month_year en st = (Raise e, st') -> main en st = (Raise e, st').
Proof. intros H. unfold main, bind. now rewrite H. Qed.

(** X13: the end of the input is not handled: when it comes at the year
    prompt, or at the month prompt after a year that was accepted, the
    resolver raises [EOFError] and [main] ends with it, having shown the
    prompts and done nothing else. *)
Theorem exhausted_input_raises_eof (en : env) :
  (run get_month_year en []
   = (Raise EOFError, mkState [] [Prompt (year_prompt en)])
   /\ run main en []
      = (Raise EOFError, mkState [] [Prompt (year_prompt en)]))
  /\ forall l1,
       ~ rejected (python en) (year_text en l1) 1900 2100 ->
       run get_month_year en [l1]
       = (Raise EOFError,
          mkState [] [Prompt (year_prompt en); Prompt (month_prompt en)])
       /\ run main en [l1]
          = (Raise EOFError,
             mkState [] [Prompt (year_prompt en); Prompt (month_prompt en)]).
Proof.
  assert (H0 : run get_month_year en []
               = (Raise EOFError, mkState [] [Prompt (year_prompt en)])).
  { unfold run. now rewrite get_month_year_cases. }
  split.
  - split; [assumption|]. now apply main_raises_with_the_resolver.
  - intros l1 Hacc.
    assert (H1 : run get_month_year en [l1]
                 = (Raise EOFError,
                    mkState [] [Prompt (year_prompt en);
                                Prompt (month_prompt en)])).
    { unfold run. rewrite get_month_year_cases. cbn [stdin log List.app].
      destruct (parse_in_range_outcome (python en) (year_text en l1) 1900 2100)
        as [[Hrej _]|[y [_ [_ Hy]]]]; [contradiction|].
      now rewrite Hy. }
    split; [assumption|]. now apply main_raises_with_the_resolver.
Qed.

Lemma exhausted_input_raises_eof_witness :
  run main Sample.healthy [Sample.nbsp_2023]
  = (Raise EOFError,
     mkState [] [Prompt (year_prompt Sample.healthy);
                 Prompt (month_prompt Sample.healthy)]).
Proof.
  apply (exhausted_input_raises_eof Sample.healthy).
  intros [H|[n [Hn Hr]]].
  - discriminate H.
  - injection Hn as <-. lia.
Defined.


(** ** The driver, further *)

Lemma percent_raster_inv (da : DataArray) (y m : Z) (snodas : bool)
  (r : raster) :
  percent_raster da y m snodas = Ok r ->
  exists normals percent,
    get_normals da y m snodas = Ok normals
    /\ get_percent_of_normal da normals y m snodas = Ok percent
    /\ r = write_crs percent "EPSG:3857".
Proof.
  unfold percent_raster. intros H.
  destruct (get_normals da y m snodas) as [normals|]; [|discriminate].
  cbn [rbind] in H.
  destruct (get_percent_of_normal da normals y m snodas) as [percent|]
    eqn:Hq; [|discriminate].
  injection H as <-. exists normals, percent. auto.
Qed.

(** The run of [main] up to the export, when both stores serve their
    variable and both rasters can be computed. *)
Lemma main_up_to_the_export (en : env) (st st' : state) (y m : Z)
  (s1 s2 : string) (v1 v2 : SourceArray) (r1 r2 : raster) :
  get_month_year en st = (Ok (Some y, Some m), st') ->
  serves en (SNODAS_SAS en) s1 "snodas-v1" "snodas.zarr" "1034" v1 ->
  serves en (COPERNICUS_SAS en) s2 "copernicus" "copernicus.zarr" "swe" v2 ->
  percent_raster (regional_subset v1) y m true = Ok r1 ->
  percent_raster (global_subset v2) y m false = Ok r2 ->
  main en st
  = (let before :=
       log st' ++ [Fetch (endpoint ++ s1) "snodas-v1" "snodas.zarr";
                   Print "snodas dataset loaded";
                   Fetch (endpoint ++ s2) "copernicus" "copernicus.zarr";
                   Print "copernicus dataset loaded";
                   Print "processing percent of normal"]%string in
     let p1 := raster_path "snodas" y m in
     let p2 := raster_path "copernicus" y m in
     if writable en p1 then
       if writable en p2 then
         (Ok tt,
          mkState (stdin st')
                  (before ++ [Written p1 r1; Print (saved_message p1);
                              Written p2 r2; Print (saved_message p2)]))
       else
         (Raise OSError,
          mkState (stdin st')
                  (before ++ [Written p1 r1; Print (saved_message p1)]))
     else (Raise OSError, mkState (stdin st') before)).
Proof.
  intros H [Hs1 [ds1 [Ho1 Hv1]]] [Hs2 [ds2 [Ho2 Hv2]]] Hr1 Hr2.
  destruct (get_month_year_accepted _ _ _ _ _ H) as [Hy [Hm _]].
  destruct (percent_raster_inv _ _ _ _ _ Hr1) as [n1 [q1 [Hn1 [Hq1 ->]]]].
  destruct (percent_raster_inv _ _ _ _ _ Hr2) as [n2 [q2 [Hn2 [Hq2 ->]]]].
  unfold regional_subset, global_subset in *.
  unfold main, bind at 1. rewrite H. clear H. destruct st' as [inp lg].
  unfold_io. rewrite Hs1, Hs2. fold endpoint. rewrite Ho1, Ho2.
  unfold getitem. rewrite Hv1, Hv2. rewrite Hn1, Hn2, Hq1, Hq2.
  rewrite (dt_date_first y m Hy Hm), (strftime_b_lower y m 1 Hm).
  change (output_filename "snodas" (month_abbrev m) y)
    with (raster_path "snodas" y m).
  change (output_filename "copernicus" (month_abbrev m) y)
    with (raster_path "copernicus" y m).
  cbv zeta. unfold saved_message.
  destruct (writable en (raster_path "snodas" y m));
    [destruct (writable en (raster_path "copernicus" y m))|];
    cbv beta iota; cbn [stdin log]; rewrite <- ?List.app_assoc;
    reflexivity.
Qed.

(** X15: when both stores serve their variable, both rasters can be
    computed and both paths can be written, [main] completes, and its log
    is, in this order: the regional fetch, the global fetch, then the
    regional raster and the global raster, each the percent of normal of
    the family's spatial subset against the normals of that same subset
    under the family's convention, tagged EPSG:3857. *)
Theorem healthy_run_writes_both_rasters (en : env) (lines : list string)
  (y m : Z) (st : state) (s1 s2 : string) (v1 v2 : SourceArray)
  (r1 r2 : raster) :
  run get_month_year en lines = (Ok (Some y, Some m), st) ->
  serves en (SNODAS_SAS en) s1 "snodas-v1" "snodas.zarr" "1034" v1 ->
  serves en (COPERNICUS_SAS en) s2 "copernicus" "copernicus.zarr" "swe" v2 ->
  percent_raster (regional_subset v1) y m true = Ok r1 ->
  percent_raster (global_subset v2) y m false = Ok r2 ->
  writable en (raster_path "snodas" y m) = true ->
  writable en (raster_path "copernicus" y m) = true ->
  run main en lines
  = (Ok tt,
     mkState (stdin st)
       (log st
        ++ [Fetch (endpoint ++ s1) "snodas-v1" "snodas.zarr";
            Print "snodas dataset loaded";
            Fetch (endpoint ++ s2) "copernicus" "copernicus.zarr";
            Print "copernicus dataset loaded";
            Print "processing percent of normal";
            Written (raster_path "snodas" y m) r1;
            Print (saved_message (raster_path "snodas" y m));
            Written (raster_path "copernicus" y m) r2;
            Print (saved_message (raster_path "copernicus" y m))]%string)).
Proof.
  unfold run. intros H Hv1 Hv2 Hr1 Hr2 Hw1 Hw2.
  rewrite (main_up_to_the_export _ _ _ _ _ _ _ _ _ _ _ H Hv1 Hv2 Hr1 Hr2).
  cbv zeta. rewrite Hw1, Hw2. now rewrite <- List.app_assoc.
Qed.

(** X16: a raster that cannot be written ends the run with [OSError] at
    that call: when it is the regional one nothing has been written, and
    when it is the global one the regional raster has been written and
    stays. *)
Theorem write_failure_keeps_what_was_written (en : env)
  (lines : list string) (y m : Z) (st : state) (s1 s2 : string)
  (v1 v2 : SourceArray) (r1 r2 : raster) :
  run get_month_year en lines = (Ok (Some y, Some m), st) ->
  serves en (SNODAS_SAS en) s1 "snodas-v1" "snodas.zarr" "1034" v1 ->
  serves en (COPERNICUS_SAS en) s2 "copernicus" "copernicus.zarr" "swe" v2 ->
  percent_raster (regional_subset v1) y m true = Ok r1 ->
  percent_raster (global_subset v2) y m false = Ok r2 ->
  exists e st',
    run main en lines = (e, st')
    /\ (writable en (raster_path "snodas" y m) = false ->
        e = Raise OSError /\ Forall (fun ev => ~ is_written ev) (log st'))
    /\ (writable en (raster_path "snodas" y m) = true ->
        writable en (raster_path "copernicus" y m) = false ->
        e = Raise OSError
        /\ In (Written (raster_path "snodas" y m) r1) (log st')
        /\ forall r, ~ In (Written (raster_path "copernicus" y m) r)
                          (log st')).
Proof.
  unfold run. intros H Hv1 Hv2 Hr1 Hr2.
  destruct (get_month_year_accepted _ _ _ _ _ H) as [_ [_ Hlog]].
  cbn [log List.app] in Hlog.
  rewrite (main_up_to_the_export _ _ _ _ _ _ _ _ _ _ _ H Hv1 Hv2 Hr1 Hr2).
  cbv zeta. rewrite Hlog. cbn [List.app].
  match goal with
  | |- exists e st', ?out = _ /\ _ => destruct out as [e st'] eqn:Hout
  end.
  exists e, st'. split; [reflexivity|]. split.
  - intros Hw1. rewrite Hw1 in Hout. injection Hout as <- <-. cbn [log].
    split; [reflexivity|]. repeat constructor; cbn; auto.
  - intros Hw1 Hw2. rewrite Hw1, Hw2 in Hout. injection Hout as <- <-.
    cbn [log]. split; [reflexivity|].
    split; [cbn; auto 12|].
    intros r Hin. cbn [In] in Hin.
    repeat (destruct Hin as [Hin|Hin]; [discriminate Hin|]).
    contradiction.
Qed.

Lemma healthy_run_writes_both_rasters_witness :
  run main Sample.healthy ["2023"; "3"]%string
  = (Ok tt,
     mkState []
       (Scenario.prompts
        ++ [Fetch (endpoint ++ "sig=r") "snodas-v1" "snodas.zarr";
            Print "snodas dataset loaded";
            Fetch (endpoint ++ "sig=g") "copernicus" "copernicus.zarr";
            Print "copernicus dataset loaded";
            Print "processing percent of normal";
            Written (raster_path "snodas" 2023 3) Scenario.march_2023;
            Print (saved_message (raster_path "snodas" 2023 3));
            Written (raster_path "copernicus" 2023 3) Scenario.march_2023;
            Print (saved_message (raster_path "copernicus" 2023 3))]%string)).
Proof.
  apply (healthy_run_writes_both_rasters Sample.healthy
           ["2023"; "3"]%string 2023 3 (mkState [] Scenario.prompts)
           "sig=r" "sig=g" Scenario.regional_var Scenario.global_var).
  - reflexivity.
  - split; [reflexivity|]. exists Sample.snodas_ds. split; reflexivity.
  - split; [reflexivity|]. exists Sample.copernicus_ds. split; reflexivity.
  - vm_compute. reflexivity.
  - vm_compute. reflexivity.
  - reflexivity.
  - reflexivity.
Defined.

Lemma write_failure_keeps_what_was_written_witness :
  exists e st',
    run main Scenario.disk_fills_up ["2023"; "3"]%string = (e, st')
    /\ e = Raise OSError
    /\ In (Written (raster_path "snodas" 2023 3) Scenario.march_2023)
          (log st').
Proof.
  destruct (write_failure_keeps_what_was_written Scenario.disk_fills_up
              ["2023"; "3"]%string 2023 3 (mkState [] Scenario.prompts)
              "sig=r" "sig=g" Scenario.regional_var Scenario.global_var
              Scenario.march_2023 Scenario.march_2023)
    as [e [st' [Hrun [_ Hsecond]]]].
  - reflexivity.
  - split; [reflexivity|]. exists Sample.snodas_ds. split; reflexivity.
  - split; [reflexivity|]. exists Sample.copernicus_ds. split; reflexivity.
  - vm_compute. reflexivity.
  - vm_compute. reflexivity.
  - exists e, st'. split; [exact Hrun|].
    destruct Hsecond as [He [Hin _]]; [reflexivity|reflexivity|]. auto.
Defined.

Ltac end_of_path :=
  cbv beta iota; cbn [rbind stdin log];
  rewrite <- ?List.app_assoc; cbn [List.app]; reflexivity.

Lemma sel_label_raises_key_error (da : DataArray) (t : datetime)
  (e : exn) :
  sel_label da t = Raise e -> e = KeyError.
Proof.
  unfold sel_label.
  destruct (filter (fun e => datetime_eqb (fst e) t) (entries da))
    as [|e1 [|e2 es]]; intros H; [now injection H|discriminate|discriminate].
Qed.

Lemma get_percent_of_normal_outcome (da : DataArray) (normals : grid)
  (y m : Z) (snodas : bool) :
  valid_year y -> valid_month m ->
  (exists p, get_percent_of_normal da normals y m snodas = Ok p)
  \/ get_percent_of_normal da normals y m snodas = Raise KeyError.
Proof.
  intros Hy Hm. rewrite get_percent_of_normal_anchor by assumption.
  destruct (sel_label da (anchor y m snodas)) as [s|e] eqn:Hs.
  - left. eexists. reflexivity.
  - right. apply sel_label_raises_key_error in Hs. now subst.
Qed.

(** X17: when the target timestep is missing from the regional series,
    or from the global one, [main] ends with the [KeyError] of the lookup
    after both stores have been contacted, and nothing is written for
    either family, the one whose target is there included. *)
Theorem missing_target_writes_nothing (en : env) (lines : list string)
  (y m : Z) (st : state) (s1 s2 : string) (v1 v2 : SourceArray) :
  run get_month_year en lines = (Ok (Some y, Some m), st) ->
  serves en (SNODAS_SAS en) s1 "snodas-v1" "snodas.zarr" "1034" v1 ->
  serves en (COPERNICUS_SAS en) s2 "copernicus" "copernicus.zarr" "swe" v2 ->
  ~ In (anchor y m true) (time (regional_subset v1))
  \/ ~ In (anchor y m false) (time (global_subset v2)) ->
  run main en lines
  = (Raise KeyError,
     mkState (stdin st)
       (log st
        ++ [Fetch (endpoint ++ s1) "snodas-v1" "snodas.zarr";
            Print "snodas dataset loaded";
            Fetch (endpoint ++ s2) "copernicus" "copernicus.zarr";
            Print "copernicus dataset loaded";
            Print "processing percent of normal"]%string)).
Proof.
  unfold run. intros H [Hs1 [ds1 [Ho1 Hv1]]] [Hs2 [ds2 [Ho2 Hv2]]] Hmiss.
  destruct (get_month_year_accepted _ _ _ _ _ H) as [Hy [Hm _]].
  unfold regional_subset, global_subset in *.
  unfold main, bind at 1. rewrite H. clear H. destruct st as [inp lg].
  unfold_io. rewrite Hs1, Hs2. fold endpoint. rewrite Ho1, Ho2.
  unfold getitem. rewrite Hv1, Hv2.
  rewrite !get_normals_produced by assumption.
  match goal with
  | |- context [get_percent_of_normal ?da ?n y m true] =>
      destruct (get_percent_of_normal_outcome da n y m true Hy Hm)
        as [[p1 Hp1]|Hp1];
      pose proof (get_percent_of_normal_anchor da n y m true Hy Hm) as Ha1;
      rewrite Hp1 in *
  end; [|end_of_path].
  destruct Hmiss as [Hmiss|Hmiss].
  - rewrite sel_label_absent in Ha1 by assumption. discriminate.
  - rewrite get_percent_of_normal_anchor by assumption.
    rewrite sel_label_absent by assumption. end_of_path.
Qed.

Lemma missing_target_writes_nothing_witness :
  run main Sample.healthy ["2024"; "3"]%string
  = (Raise KeyError,
     mkState []
       (Scenario.prompts
        ++ [Fetch (endpoint ++ "sig=r") "snodas-v1" "snodas.zarr";
            Print "snodas dataset loaded";
            Fetch (endpoint ++ "sig=g") "copernicus" "copernicus.zarr";
            Print "copernicus dataset loaded";
            Print "processing percent of normal"]%string)).
Proof.
  apply (missing_target_writes_nothing Sample.healthy
           ["2024"; "3"]%string 2024 3 (mkState [] Scenario.prompts)
           "sig=r" "sig=g" Scenario.regional_var Scenario.global_var).
  - reflexivity.
  - split; [reflexivity|]. exists Sample.snodas_ds. split; reflexivity.
  - split; [reflexivity|]. exists Sample.copernicus_ds. split; reflexivity.
  - left. cbn. intuition discriminate.
Defined.

(** X18: a credential that is not in the environment ends the run with
    [TypeError] where the address of its store is built, before that
    store is contacted: at once for the regional one, and after the
    regional dataset has been loaded for the global one. *)
Theorem missing_credential_is_a_type_error (en : env)
  (lines : list string) (y m : Z) (st : state) :
  run get_month_year en lines = (Ok (Some y, Some m), st) ->
  (SNODAS_SAS en = None -> run main en lines = (Raise TypeError, st))
  /\ (forall s1 v1,
        serves en (SNODAS_SAS en) s1 "snodas-v1" "snodas.zarr" "1034" v1 ->
        COPERNICUS_SAS en = None ->
        run main en lines
        = (Raise TypeError,
           mkState (stdin st)
             (log st ++ [Fetch (endpoint ++ s1) "snodas-v1" "snodas.zarr";
                         Print "snodas dataset loaded"]%string))).
Proof.
  unfold run. intros H. split.
  - intros Hs. unfold main, bind at 1. rewrite H. destruct st as [inp lg].
    unfold_io. rewrite Hs. reflexivity.
  - intros s1 v1 [Hs1 [ds1 [Ho1 Hv1]]] Hs2.
    unfold main, bind at 1. rewrite H. destruct st as [inp lg].
    unfold_io. rewrite Hs1, Hs2. fold endpoint. rewrite Ho1.
    unfold getitem. rewrite Hv1. end_of_path.
Qed.

Lemma missing_credential_is_a_type_error_witness :
  run main Scenario.no_regional_credential ["2023"; "3"]%string
  = (Raise TypeError, mkState [] Scenario.prompts).
Proof.
  apply (missing_credential_is_a_type_error Scenario.no_regional_credential
           ["2023"; "3"]%string 2023 3 (mkState [] Scenario.prompts)).
  - reflexivity.
  - reflexivity.
Defined.

(** X19: a store that opens to a dataset without the variable [main]
    reads (['1034'] in the regional one, ['swe'] in the global one) ends
    the run with [KeyError] right after that dataset was reported as
    loaded; for the regional one the global store is not contacted. *)
Theorem missing_variable_is_a_key_error (en : env) (lines : list string)
  (y m : Z) (st : state) (s1 : string) (ds1 : Dataset) :
  run get_month_year en lines = (Ok (Some y, Some m), st) ->
  SNODAS_SAS en = Some s1 ->
  open_zarr en (endpoint ++ s1)%string "snodas-v1" "snodas.zarr" = Some ds1 ->
  (ds1 "1034"%string = None ->
   run main en lines
   = (Raise KeyError,
      mkState (stdin st)
        (log st ++ [Fetch (endpoint ++ s1) "snodas-v1" "snodas.zarr";
                    Print "snodas dataset loaded"]%string)))
  /\ (forall v1 s2 ds2,
        ds1 "1034"%string = Some v1 ->
        COPERNICUS_SAS en = Some s2 ->
        open_zarr en (endpoint ++ s2)%string "copernicus" "copernicus.zarr"
        = Some ds2 ->
        ds2 "swe"%string = None ->
        run main en lines
        = (Raise KeyError,
           mkState (stdin st)
             (log st
              ++ [Fetch (endpoint ++ s1) "snodas-v1" "snodas.zarr";
                  Print "snodas dataset loaded";
                  Fetch (endpoint ++ s2) "copernicus" "copernicus.zarr";
                  Print "copernicus dataset loaded"]%string))).
Proof.
  unfold run. intros H Hs1 Ho1. split.
  - intros Hv1. unfold main, bind at 1. rewrite H. destruct st as [inp lg].
    unfold_io. rewrite Hs1. fold endpoint. rewrite Ho1.
    unfold getitem. rewrite Hv1. end_of_path.
  - intros v1 s2 ds2 Hv1 Hs2 Ho2 Hv2.
    unfold main, bind at 1. rewrite H. destruct st as [inp lg].
    unfold_io. rewrite Hs1, Hs2. fold endpoint. rewrite Ho1, Ho2.
    unfold getitem. rewrite Hv1, Hv2. end_of_path.
Qed.

Lemma missing_variable_is_a_key_error_witness :
  run main Scenario.no_regional_variable ["2023"; "3"]%string
  = (Raise KeyError,
     mkState []
       (Scenario.prompts
        ++ [Fetch (endpoint ++ "sig=r") "snodas-v1" "snodas.zarr";
            Print "snodas dataset loaded"]%string)).
Proof.
  apply (missing_variable_is_a_key_error Scenario.no_regional_variable
           ["2023"; "3"]%string 2023 3 (mkState [] Scenario.prompts)
           "sig=r" (fun _ => None)).
  - reflexivity.
  - reflexivity.
  - reflexivity.
  - reflexivity.
Defined.

(** ** Output file names *)

Lemma string_length_append (s t : string) :
  String.length (s ++ t) = (String.length s + String.length t)%nat.
Proof. induction s as [|c s IH]; cbn; [reflexivity|now rewrite IH]. Qed.

Lemma append_cancel_r (t : string) :
  forall s1 s2 : string, (s1 ++ t = s2 ++ t)%string -> s1 = s2.
Proof.
  induction s1 as [|c1 s1 IH]; intros [|c2 s2] H; cbn in H.
  - reflexivity.
  - apply (f_equal String.length) in H. cbn in H.
    rewrite string_length_append in H. lia.
  - apply (f_equal String.length) in H. cbn in H.
    rewrite string_length_append in H. lia.
  - injection H as -> H. f_equal. now apply IH.
Qed.

Lemma str_inj (y y' : Z) : Py.str y = Py.str y' -> y = y'.
Proof.
  intros H.
  pose (py := Py.mkInterpreter (fun _ => []) (fun _ => false)
                               (fun _ => None) 0).
  apply (f_equal (Py.int py)) in H. rewrite !int_str in H.
  unfold Py.over_limit in H. cbn [Py.max_str_digits py] in H.
  change (0 <? 0)%N with false in H. rewrite !andb_false_r in H.
  cbn [andb] in H. now injection H.
Qed.

Lemma month_abbrev_prefix (m m' : Z) (t t' : string) :
  valid_month m -> valid_month m' ->
  (month_abbrev m ++ t = month_abbrev m' ++ t')%string ->
  m = m' /\ t = t'.
Proof.
  unfold valid_month. intros Hm Hm' H.
  assert (Hc : m = 1 \/ m = 2 \/ m = 3 \/ m = 4 \/ m = 5 \/ m = 6 \/ m = 7
               \/ m = 8 \/ m = 9 \/ m = 10 \/ m = 11 \/ m = 12) by lia.
  assert (Hc' : m' = 1 \/ m' = 2 \/ m' = 3 \/ m' = 4 \/ m' = 5 \/ m' = 6
                \/ m' = 7 \/ m' = 8 \/ m' = 9 \/ m' = 10 \/ m' = 11
                \/ m' = 12) by lia.
  clear Hm Hm'.
  repeat (destruct Hc as [Hc|Hc]); subst m;
    repeat (destruct Hc' as [Hc'|Hc']); subst m';
    cbn in H; first [discriminate H | injection H as ->; auto].
Qed.

(** X20: the output file name determines the family, the year and the
    month: two targets, or the two families, never share a file, and a
    run for a target overwrites only the files of that same target. *)
Theorem raster_paths_do_not_collide (f f' : string) (y y' m m' : Z) :
  is_family f -> is_family f' -> valid_month m -> valid_month m' ->
  raster_path f y m = raster_path f' y' m' ->
  f = f' /\ y = y' /\ m = m'.
Proof.
  intros Hf Hf' Hm Hm' H. unfold raster_path in H.
  destruct Hf as [->| ->], Hf' as [->| ->]; cbn [String.append] in H;
    try discriminate H.
  - repeat (injection H as H).
    apply month_abbrev_prefix in H; [|assumption|assumption].
    destruct H as [-> H]. injection H as H.
    apply append_cancel_r, str_inj in H. auto.
  - repeat (injection H as H).
    apply month_abbrev_prefix in H; [|assumption|assumption].
    destruct H as [-> H]. injection H as H.
    apply append_cancel_r, str_inj in H. auto.
Qed.

Lemma raster_paths_do_not_collide_witness :
  "snodas"%string = "snodas"%string /\ 2023 = 2023 /\ 3 = 3.
Proof.
  apply (raster_paths_do_not_collide "snodas" "snodas" 2023 2023 3 3).
  - left. reflexivity.
  - left. reflexivity.
  - unfold valid_month. lia.
  - unfold valid_month. lia.
  - reflexivity.
Defined.

(** ** January targets *)

(** X21: for a January target the candidates [pd.date_range] yields are
    the ones the design describes, the January anchors of every year from
    the earliest valid year through [y - 1], and [get_normals] returns
    the mean over exactly the timesteps of the series stamped at one of
    them. *)
Theorem january_normals_are_as_described (da : DataArray) (y : Z)
  (snodas : bool) :
  valid_year y ->
  month_firsts y 1 snodas = Ok (described_candidates y 1 snodas)
  /\ get_normals da y 1 snodas = Ok (described_normals da y 1 snodas).
Proof.
  intros Hy. assert (Hm : valid_month 1) by (unfold valid_month; lia).
  split.
  - now rewrite month_firsts_produced.
  - now rewrite get_normals_produced.
Qed.

Lemma january_normals_are_as_described_witness :
  get_normals Sample.from_2008 2010 1 true
  = Ok (described_normals Sample.from_2008 2010 1 true).
Proof.
  apply (january_normals_are_as_described Sample.from_2008 2010 true).
  unfold valid_year. lia.
Defined.
